(** * picfit: the HTTP handlers of [server/http_handlers.go]

    A shallow embedding of the request handlers ([display], [get],
    [redirect], their secured variants, [delete], [info], [exist] and the
    [securePath] step) together with the parts of gin and net/http they
    drive, followed by the properties of the handlers.

    A handler is a function on a world: the gin context it is given, and
    the logs of what it asks of its collaborators. It ends by returning an
    [error] (or nil) or by panicking. The collaborators that live in other
    packages (the processor, the codec, the methods of [image.ImageFile],
    [json.Marshal], [http.Redirect]) are parameters; they are taken to
    return to the handler. *)

From Stdlib Require Import ZArith.
From Stdlib.Strings Require Import Byte Ascii String.
From stdpp Require Import base option list strings gmap.

Set Warnings "-register-all".
Local Open Scope Z_scope.
Local Open Scope string_scope.

(** ** Go values *)

(** A value held in an [interface{}]: the dynamic types that reach the
    type assertions of the handlers. *)
Inductive iface : Type :=
  | INil
  | IString (s : string)
  | IInt (n : Z)
  | IBool (b : bool)
  | IMap (m : gmap string iface).

(** Go's [error] values seen by the handlers: the two sentinels of the
    [failure] package that the file names, and any other error. *)
Inductive error : Type :=
  | ErrUnprocessable
  | ErrFileNotExists
  | ErrOther (msg : string).

(** Run-time panics raised by the statements of the file. *)
Inductive panic : Type :=
  | PanicKeyNotExist (key : string)
  | PanicInterfaceConversion
  | PanicSliceBounds
  | PanicNilDereference.

(** [s[1:]] on a Go string. *)
Definition string_from1 (s : string) : option string :=
  match s with
  | EmptyString => None
  | String _ rest => Some rest
  end.

(** [k[:n]] and [k[n:]] on a byte sequence whose capacity is its length. *)
Definition slice_to (n : nat) (k : list byte) : option (list byte) :=
  if decide (n ≤ length k)%nat then Some (take n k) else None.

Definition slice_from (n : nat) (k : list byte) : option (list byte) :=
  if decide (n ≤ length k)%nat then Some (drop n k) else None.

(** ** The image package and the facade's vocabulary *)

(** A storage handle ([gostorages.Storage]); the handlers only test it
    against nil and store it. *)
Record Storage : Type := { StorageName : string }.

(** [image.ImageFile], with the fields the handlers read or write. *)
Record ImageFile : Type := {
  Filepath : string;
  Key : string;
  Headers : gmap string string;
  FileStorage : option Storage
}.

(** [image.ImageSizes]. *)
Record ImageSizes : Type := { Width : Z; Height : Z; Bytes : Z }.

(** The functional options handed to [ProcessContext]. *)
Inductive Option : Type :=
  | WithAsync (b : bool)
  | WithLoad (b : bool).

(** Modelled from the spec: the options record of the [picfit] package,
    which is not in this file; section 3 gives it as
    [{async: bool, load: bool}], each [With...] option setting its field. *)
Record ProcessingOptions : Type := { async : bool; load : bool }.

Definition applyOption (o : ProcessingOptions) (f : Option) : ProcessingOptions :=
  match f with
  | WithAsync b => {| async := b; load := load o |}
  | WithLoad b => {| async := async o; load := b |}
  end.

Definition applyOptions (init : ProcessingOptions) (fs : list Option) : ProcessingOptions :=
  foldl applyOption init fs.

(** Modelled from the spec: the status the [failure] package (not in this
    file) attaches to its sentinels; section 6 gives 422 for an
    unprocessable request and 404 for an absent resource. *)
Definition failure_status (e : error) : option Z :=
  match e with
  | ErrUnprocessable => Some 422
  | ErrFileNotExists => Some 404
  | ErrOther _ => None
  end.

(** ** net/http and gin *)

Definition StatusOK : Z := 200.
Definition StatusMovedPermanently : Z := 301.
Definition StatusBadRequest : Z := 400.
Definition StatusNotFound : Z := 404.

(** [aes.BlockSize]. *)
Definition BlockSize : nat := 16.

(** [textproto.validHeaderFieldByte]: the token characters of RFC 7230. *)
Definition validHeaderFieldByte (a : ascii) : bool :=
  let n := nat_of_ascii a in
  ((48 <=? n) && (n <=? 57) || (65 <=? n) && (n <=? 90)
   || (97 <=? n) && (n <=? 122)
   || bool_decide (n ∈ [33; 35; 36; 37; 38; 39; 42; 43; 45; 46; 94; 95; 96; 124; 126]))%nat.

Definition is_lower (a : ascii) : bool :=
  let n := nat_of_ascii a in ((97 <=? n) && (n <=? 122))%nat.
Definition is_upper (a : ascii) : bool :=
  let n := nat_of_ascii a in ((65 <=? n) && (n <=? 90))%nat.
Definition to_upper (a : ascii) : ascii :=
  if is_lower a then ascii_of_nat (nat_of_ascii a - 32) else a.
Definition to_lower (a : ascii) : ascii :=
  if is_upper a then ascii_of_nat (nat_of_ascii a + 32) else a.

Fixpoint all_valid (s : string) : bool :=
  match s with
  | EmptyString => true
  | String a r => validHeaderFieldByte a && all_valid r
  end.

(** Upper case at the start and after each dash, lower case elsewhere. *)
Fixpoint canonicalize (upper : bool) (s : string) : string :=
  match s with
  | EmptyString => EmptyString
  | String a r =>
      let a' := if upper then to_upper a else to_lower a in
      String a' (canonicalize (bool_decide (a' = "-"%char)) r)
  end.

(** [textproto.CanonicalMIMEHeaderKey]: a key holding a byte that is not a
    token character is returned as it is. *)
Definition CanonicalMIMEHeaderKey (s : string) : string :=
  if all_valid s then canonicalize true s else s.

(** The response as gin's writer accumulates it before the header is
    flushed to the connection: status, header map ([http.Header] is
    [map[string][]string]) and the bytes written to the body. *)
Record ResponseWriter : Type := {
  Status : Z;
  Header : gmap string (list string);
  Body : list byte
}.

(** [http.Header.Set] and [http.Header.Del]. *)
Definition Header_Set (k v : string) (h : gmap string (list string)) :
    gmap string (list string) :=
  <[CanonicalMIMEHeaderKey k := [v]]> h.

Definition Header_Del (k : string) (h : gmap string (list string)) :
    gmap string (list string) :=
  delete (CanonicalMIMEHeaderKey k) h.

(** [render.writeContentType]: sets Content-Type only when the header map
    has no value for it. *)
Definition writeContentType (value : list string) (h : gmap string (list string)) :
    gmap string (list string) :=
  match h !! "Content-Type" with
  | Some (_ :: _) => h
  | _ => <["Content-Type" := value]> h
  end.

(** [gin.Context], with the parts the handlers touch: route parameters,
    query values, the [Keys] bag, the writer and the abort flag. *)
Record Context : Type := {
  Params : list (string * string);
  QueryValues : gmap string (list string);
  Keys : gmap string iface;
  Writer : ResponseWriter;
  Aborted : bool
}.

Definition with_Writer (w : ResponseWriter) (c : Context) : Context :=
  {| Params := Params c; QueryValues := QueryValues c; Keys := Keys c;
     Writer := w; Aborted := Aborted c |}.

Definition with_Status (code : Z) (w : ResponseWriter) : ResponseWriter :=
  {| Status := code; Header := Header w; Body := Body w |}.

Definition with_Header (h : gmap string (list string)) (w : ResponseWriter) :
    ResponseWriter :=
  {| Status := Status w; Header := h; Body := Body w |}.

Definition write_Body (data : list byte) (w : ResponseWriter) : ResponseWriter :=
  {| Status := Status w; Header := Header w; Body := Body w ++ data |}.

Definition abort (c : Context) : Context :=
  {| Params := Params c; QueryValues := QueryValues c; Keys := Keys c;
     Writer := Writer c; Aborted := true |}.

(** [render.bodyAllowedForStatus]. *)
Definition bodyAllowedForStatus (status : Z) : bool :=
  negb ((100 <=? status)%Z && (status <=? 199)%Z || (status =? 204)%Z || (status =? 304)%Z).

(** ** Calls that leave the handlers *)

(** An invocation of a method of the Processor facade. *)
Inductive FacadeCall : Type :=
  | CallProcessContext (opts : list Option)
  | CallGetSizes (file : option ImageFile)
  | CallGetStorageByFileExist (path : string)
  | CallDelete (path : string)
  | CallDeleteChild (key : string)
  | CallSetSecuredOptions (path : string).

(** An invocation of [aes256cbc.Decode]. *)
Record CodecCall : Type := {
  token : string;
  cipherKey : list byte;
  initVector : list byte
}.

(** A line handed to the processor's logger. *)
Record LogEntry : Type := { message : string; fields : list (string * string) }.

(** The processor: its key material and the results of its methods. The
    [picfit] package is outside this file, so the methods are taken as
    they are declared, and every invocation is recorded. *)
Record Processor : Type := {
  SecurePathKey : list byte;
  ProcessContext : Context → list Option → option ImageFile * option error;
  GetSizes : option ImageFile → option ImageSizes * option error;
  GetStorageByFileExist : string → option Storage;
  Delete : string → option error;
  DeleteChild : string → option error;
  SetSecuredOptions : Context → string → Context
}.

Record handlers : Type := { processor : Processor }.

(** ** The handler monad: state, call logs and panics *)

(** The state a handler runs in: the gin context, and what the handler has
    done so far to its collaborators, in order: the facade methods invoked,
    the codec calls, the log lines, and the [c.Header] calls. *)
Record World : Type := {
  ctx : Context;
  facade : list FacadeCall;
  codec : list CodecCall;
  logged : list LogEntry;
  header_calls : list (string * string)
}.

Inductive Res (A : Type) : Type :=
  | Done (a : A)
  | Panicked (p : panic).
Arguments Done {A} a.
Arguments Panicked {A} p.

Definition M (A : Type) : Type := World → Res A * World.

Definition M_ret {A} (a : A) : M A := λ w, (Done a, w).

Definition M_bind {A B} (m : M A) (f : A → M B) : M B :=
  λ w, match m w with
       | (Done a, w') => f a w'
       | (Panicked p, w') => (Panicked p, w')
       end.

Notation "'do' x <- m ; k" := (M_bind m (λ x, k))
  (at level 10, x name, m at level 100, k at level 200, only parsing).
Notation "'do' ' pat <- m ; k" := (M_bind m (λ x, match x with pat => k end))
  (at level 10, pat pattern, m at level 100, k at level 200, only parsing).
Notation "'exec' m ; k" := (M_bind m (λ _, k))
  (at level 10, m at level 100, k at level 200, only parsing).

Definition raise {A} (p : panic) : M A := λ w, (Panicked p, w).

Definition get_ctx : M Context := λ w, (Done (ctx w), w).

Definition put_ctx (c : Context) : M unit :=
  λ w, (Done tt, {| ctx := c; facade := facade w; codec := codec w;
                    logged := logged w; header_calls := header_calls w |}).

Definition modify_Writer (f : ResponseWriter → ResponseWriter) : M unit :=
  do c <- get_ctx; put_ctx (with_Writer (f (Writer c)) c).

Definition record_facade (call : FacadeCall) : M unit :=
  λ w, (Done tt, {| ctx := ctx w; facade := facade w ++ [call];
                    codec := codec w; logged := logged w;
                    header_calls := header_calls w |}).

Definition record_codec (call : CodecCall) : M unit :=
  λ w, (Done tt, {| ctx := ctx w; facade := facade w;
                    codec := codec w ++ [call]; logged := logged w;
                    header_calls := header_calls w |}).

Definition record_log (e : LogEntry) : M unit :=
  λ w, (Done tt, {| ctx := ctx w; facade := facade w;
                    codec := codec w; logged := logged w ++ [e];
                    header_calls := header_calls w |}).

Definition record_header (k v : string) : M unit :=
  λ w, (Done tt, {| ctx := ctx w; facade := facade w;
                    codec := codec w; logged := logged w;
                    header_calls := header_calls w ++ [(k, v)] |}).

Definition from_option {A} (p : panic) (o : option A) : M A :=
  match o with
  | Some a => M_ret a
  | None => raise p
  end.

Fixpoint for_range {A} (l : list A) (body : A → M unit) : M unit :=
  match l with
  | [] => M_ret tt
  | x :: r => exec body x; for_range r body
  end.

(** A handler entered on context [c] with empty call logs. *)
Definition enter (c : Context) : World :=
  {| ctx := c; facade := []; codec := []; logged := []; header_calls := [] |}.

(** ** gin's context methods *)

(** [c.Param]: the first parameter of that name, or the empty string. *)
Fixpoint Params_ByName (ps : list (string * string)) (name : string) : string :=
  match ps with
  | [] => EmptyString
  | (k, v) :: r => if decide (k = name) then v else Params_ByName r name
  end.

Definition Param (c : Context) (key : string) : string :=
  Params_ByName (Params c) key.

Definition c_Param (key : string) : M string :=
  do c <- get_ctx; M_ret (Param c key).

(** [c.Query]: the first value of that key, or the empty string. *)
Definition Query (c : Context) (key : string) : string :=
  match QueryValues c !! key with
  | Some (v :: _) => v
  | _ => EmptyString
  end.

Definition c_Query (key : string) : M string :=
  do c <- get_ctx; M_ret (Query c key).

(** [c.Get]: the value and whether the key exists. *)
Definition Get (c : Context) (key : string) : iface * bool :=
  match Keys c !! key with
  | Some v => (v, true)
  | None => (INil, false)
  end.

Definition c_Get (key : string) : M (iface * bool) :=
  do c <- get_ctx; M_ret (Get c key).

(** [c.MustGet]: panics when the key does not exist. *)
Definition c_MustGet (key : string) : M iface :=
  do '(v, found) <- c_Get key;
  if found then M_ret v else raise (PanicKeyNotExist key).

(** [c.Header]: an empty value removes the header. *)
Definition Header_apply (key value : string) (h : gmap string (list string)) :
    gmap string (list string) :=
  if decide (value = EmptyString) then Header_Del key h else Header_Set key value h.

Definition c_Header (key value : string) : M unit :=
  exec record_header key value;
  modify_Writer (λ w, with_Header (Header_apply key value (Header w)) w).

(** [c.Status]. *)
Definition c_Status (code : Z) : M unit :=
  if (0 <? code)%Z then modify_Writer (with_Status code) else M_ret tt.

(** [c.Render] of a renderer that writes content type [ct] and bytes
    [data] ([render.Data], and [render.String] without arguments). *)
Definition c_Render (code : Z) (ct : list string) (data : list byte) : M unit :=
  exec c_Status code;
  exec modify_Writer (λ w, with_Header (writeContentType ct (Header w)) w);
  if bodyAllowedForStatus code then modify_Writer (write_Body data) else M_ret tt.

Definition c_Data (code : Z) (contentType : string) (data : list byte) : M unit :=
  c_Render code [contentType] data.

Definition c_String (code : Z) (format : string) : M unit :=
  c_Render code ["text/plain; charset=utf-8"] (list_byte_of_string format).

(** [c.AbortWithStatus]. *)
Definition c_AbortWithStatus (code : Z) : M unit :=
  exec c_Status code;
  do c <- get_ctx; put_ctx (abort c).

(** The type assertions [v.(string)] and [v.(map[string]interface{})]. *)
Definition assert_string (v : iface) : M string :=
  match v with
  | IString s => M_ret s
  | _ => raise PanicInterfaceConversion
  end.

Definition assert_map (v : iface) : M (gmap string iface) :=
  match v with
  | IMap m => M_ret m
  | _ => raise PanicInterfaceConversion
  end.

(** Indexing a [map[string]interface{}]: nil when the key is absent. *)
Definition map_index (m : gmap string iface) (k : string) : iface :=
  default INil (m !! k).

(** ** The handlers *)

Section Handlers.

(** The order in which a [for ... range] statement visits a map: Go
    leaves it unspecified, so it is taken as a parameter; the properties
    assume only that it enumerates the entries of the map. *)
Variable range_order : gmap string string → list (string * string).

(** [aes256cbc.Decode], from a package outside this file. *)
Variable Decode : string → list byte → list byte → string * option error.

(** The methods of [image.ImageFile], from a package outside this file. *)
Variable ContentType : ImageFile → string.
Variable Content : ImageFile → list byte.
Variable URL : ImageFile → string.
Variable Path : ImageFile → string.
Variable Filename : ImageFile → string.

(** [json.Marshal] of a [gin.H], and what [http.Redirect] leaves in the
    writer. *)
Variable json_Marshal : gmap string iface → list byte.
Variable http_Redirect : Context → string → Z → ResponseWriter.

Variable h : handlers.

Definition c_JSON (code : Z) (obj : gmap string iface) : M unit :=
  c_Render code ["application/json; charset=utf-8"] (json_Marshal obj).

Definition c_Redirect (code : Z) (location : string) : M unit :=
  do c <- get_ctx; put_ctx (with_Writer (http_Redirect c location code) c).

Definition call_ProcessContext (opts : list Option) :
    M (option ImageFile * option error) :=
  do c <- get_ctx;
  exec record_facade (CallProcessContext opts);
  M_ret (ProcessContext (processor h) c opts).

Definition call_GetSizes (file : option ImageFile) :
    M (option ImageSizes * option error) :=
  exec record_facade (CallGetSizes file);
  M_ret (GetSizes (processor h) file).

(** display displays and image using resizing parameters *)
Definition handlers_display : M (option error) :=
  do '(file, err) <- call_ProcessContext [WithAsync true; WithLoad true];
  match err with
  | Some e => M_ret (Some e)
  | None =>
      do file <- from_option PanicNilDereference file;
      exec for_range (range_order (Headers file)) (λ kv, c_Header kv.1 kv.2);
      exec c_Header "Cache-Control" "must-revalidate";
      exec c_Data StatusOK (ContentType file) (Content file);
      M_ret None
  end.

Definition handlers_securePath : M (option error) :=
  do v <- c_MustGet "parameters";
  do parameters <- assert_map v;
  do encodedPath <- assert_string (map_index parameters "path");
  do key <- from_option PanicSliceBounds
              (slice_to BlockSize (SecurePathKey (processor h)));
  do iv <- from_option PanicSliceBounds
             (slice_from BlockSize (SecurePathKey (processor h)));
  exec record_codec {| token := encodedPath; cipherKey := key; initVector := iv |};
  let (path, err) := Decode encodedPath key iv in
  match err with
  | Some e =>
      exec c_AbortWithStatus StatusNotFound;
      M_ret (Some e)
  | None =>
      exec record_log {| message := "Path decoded"; fields := [("path", path)] |};
      do c <- get_ctx;
      exec record_facade (CallSetSecuredOptions path);
      exec put_ctx (SetSecuredOptions (processor h) c path);
      M_ret None
  end.

Definition handlers_secureDisplay : M (option error) :=
  do err <- handlers_securePath;
  match err with
  | Some e => M_ret (Some e)
  | None => handlers_display
  end.

(** delete deletes a file from storages *)
Definition handlers_delete : M (option error) :=
  do path <- c_Param "parameters";
  do '(key, found) <- c_Get "key";
  if bool_decide (path = EmptyString) && negb found
  then M_ret (Some ErrUnprocessable)
  else
    do err <- (if negb found
               then
                 do p <- from_option PanicSliceBounds (string_from1 path);
                 exec record_facade (CallDelete p);
                 M_ret (Delete (processor h) p)
               else
                 do k <- assert_string key;
                 exec record_facade (CallDeleteChild k);
                 M_ret (DeleteChild (processor h) k));
    match err with
    | Some e => M_ret (Some e)
    | None =>
        exec c_String StatusOK "Ok";
        M_ret None
    end.

(** get generates an image synchronously and return its information
    from storages *)
Definition handlers_get : M (option error) :=
  do '(file, err) <- call_ProcessContext [WithAsync false; WithLoad false];
  match err with
  | Some e => M_ret (Some e)
  | None =>
      do '(imageSizes, err) <- call_GetSizes file;
      match err with
      | Some e => M_ret (Some e)
      | None =>
          do file <- from_option PanicNilDereference file;
          do imageSizes <- from_option PanicNilDereference imageSizes;
          exec c_JSON StatusOK
            (<["filename" := IString (Filename file)]>
             (<["path" := IString (Path file)]>
             (<["url" := IString (URL file)]>
             (<["key" := IString (Key file)]>
             (<["width" := IInt (Width imageSizes)]>
             (<["height" := IInt (Height imageSizes)]>
             (<["bytes" := IInt (Bytes imageSizes)]> ∅)))))));
          M_ret None
      end
  end.

Definition handlers_secureGet : M (option error) :=
  do err <- handlers_securePath;
  match err with
  | Some e => M_ret (Some e)
  | None => handlers_get
  end.

(** redirect redirects to the image using base url from storage *)
Definition handlers_redirect : M (option error) :=
  do '(file, err) <- call_ProcessContext [WithAsync false; WithLoad false];
  match err with
  | Some e => M_ret (Some e)
  | None =>
      do file <- from_option PanicNilDereference file;
      exec c_Redirect StatusMovedPermanently (URL file);
      M_ret None
  end.

Definition handlers_secureRedirect : M (option error) :=
  do err <- handlers_securePath;
  match err with
  | Some e => M_ret (Some e)
  | None => handlers_redirect
  end.

Definition handlers_info : M (option error) :=
  do path <- c_Query "path";
  if bool_decide (path = EmptyString)
  then
    exec c_String StatusBadRequest "Request should contains path string";
    M_ret None
  else
    exec record_facade (CallGetStorageByFileExist path);
    match GetStorageByFileExist (processor h) path with
    | None => M_ret (Some ErrFileNotExists)
    | Some storage =>
        let img := {| Filepath := path; Key := EmptyString; Headers := ∅;
                      FileStorage := Some storage |} in
        do '(imgSizes, err) <- call_GetSizes (Some img);
        match err with
        | Some e => M_ret (Some e)
        | None =>
            do imgSizes <- from_option PanicNilDereference imgSizes;
            exec c_JSON StatusOK
              (<["filename" := IString (Filename img)]>
               (<["path" := IString (Path img)]>
               (<["url" := IString (URL img)]>
               (<["width" := IInt (Width imgSizes)]>
               (<["height" := IInt (Height imgSizes)]>
               (<["bytes" := IInt (Bytes imgSizes)]> ∅))))));
            M_ret None
        end
    end.

Definition handlers_exist : M (option error) :=
  do path <- c_Query "path";
  if bool_decide (path = EmptyString)
  then
    exec c_String StatusBadRequest "Request should contains path string";
    M_ret None
  else
    exec record_facade (CallGetStorageByFileExist path);
    match GetStorageByFileExist (processor h) path with
    | None => M_ret (Some ErrFileNotExists)
    | Some _ => M_ret None
    end.

End Handlers.

(** The options each recorded [ProcessContext] call resolves to, starting
    from the package's defaults [init]. *)
Definition resolved_options (init : ProcessingOptions) (calls : list FacadeCall) :
    list ProcessingOptions :=
  omap (λ call, match call with
                | CallProcessContext opts => Some (applyOptions init opts)
                | _ => None
                end) calls.

(** The header map after a sequence of [c.Header] calls. *)
Definition Header_fold (l : list (string * string)) (h : gmap string (list string)) :
    gmap string (list string) :=
  foldl (λ h kv, Header_apply kv.1 kv.2 h) h l.

(** ** A stub processor and concrete requests *)

Definition stubFile : ImageFile :=
  {| Filepath := "a/b.jpg"; Key := "k1";
     Headers := <["Cache-Control" := "no-cache"]> (<["X-Robots" := "none"]> ∅);
     FileStorage := None |}.

Definition stubProcessor (key : list byte) : Processor :=
  {| SecurePathKey := key;
     ProcessContext := λ _ _, (Some stubFile, None);
     GetSizes := λ _, (Some {| Width := 4; Height := 3; Bytes := 12 |}, None);
     GetStorageByFileExist := λ _, Some {| StorageName := "fs" |};
     Delete := λ _, None;
     DeleteChild := λ _, None;
     SetSecuredOptions := λ c _, c |}.

Definition stubHandlers (key : list byte) : handlers :=
  {| processor := stubProcessor key |}.

(** A codec that rejects every token, and one that accepts every token. *)
Definition rejectAll (tok : string) (k iv : list byte) : string * option error :=
  (EmptyString, Some (ErrOther "cipher: message authentication failed")).

Definition acceptAll (tok : string) (k iv : list byte) : string * option error :=
  (tok, None).

Definition freshWriter : ResponseWriter :=
  {| Status := StatusOK; Header := ∅; Body := [] |}.

Definition request (ps : list (string * string)) (q : gmap string (list string))
    (ks : gmap string iface) : Context :=
  {| Params := ps; QueryValues := q; Keys := ks; Writer := freshWriter;
     Aborted := false |}.

Definition key32 : list byte := replicate 32 x2a.
Definition key48 : list byte := replicate 48 x2a.

Definition stubContentType (f : ImageFile) : string := "image/jpeg".
Definition stubContent (f : ImageFile) : list byte := [xff; xd8; xff].
Definition stubURL (f : ImageFile) : string := "http://cdn/" +:+ Filepath f.
Definition stubRedirect (c : Context) (loc : string) (code : Z) : ResponseWriter :=
  with_Header (<["Location" := [loc]]> (Header (Writer c))) (with_Status code (Writer c)).


Definition stubPath (f : ImageFile) : string := Filepath f.
Definition stubFilename (f : ImageFile) : string := "b.jpg".
Definition stubMarshal (obj : gmap string iface) : list byte := [x7b; x7d].

(** A secured request carrying token [tok], a delete request with both a
    path and a derived key, and a request with nothing attached. *)
Definition securedRequest (tok : string) : Context :=
  request [] ∅ (<["parameters" := IMap (<["path" := IString tok]> ∅)]> ∅).

Definition deleteBothRequest : Context :=
  request [("parameters", "/a.jpg")] ∅ (<["key" := IString "kk"]> ∅).

Definition deletePathRequest : Context :=
  request [("parameters", "/a.jpg")] ∅ ∅.

Definition bareRequest : Context := request [] ∅ ∅.

(** ** Upload *)

Section Upload.

(** [payload.Multipart] and its zero value, [binding.Bind] (which fills the
    payload from the request and reports what it could not bind), and the
    processor's [Upload]; all three live outside this file. *)
Variable Multipart : Type.
Variable new_Multipart : Multipart.
Variable Bind : Context → Multipart → Multipart * option error.
Variable Upload : Multipart → option ImageFile * option error.

Variable URL : ImageFile → string.
Variable Path : ImageFile → string.
Variable json_Marshal : gmap string iface → list byte.

(** upload uploads an image to the destination storage. Beside the
    outcome and the world, the payloads handed to [Upload] are returned,
    in order. *)
Definition handlers_upload (w : World) :
    Res (option error) * World * list Multipart :=
  let (multipartPayload, errs) := Bind (ctx w) new_Multipart in
  match errs with
  | Some e => (Done (Some e), w, [])
  | None =>
      let (file, err) := Upload multipartPayload in
      match err with
      | Some e => (Done (Some e), w, [multipartPayload])
      | None =>
          match file with
          | None => (Panicked PanicNilDereference, w, [multipartPayload])
          | Some file =>
              match c_JSON json_Marshal StatusOK
                      (<["filename" := IString (Filepath file)]>
                       (<["path" := IString (Path file)]>
                       (<["url" := IString (URL file)]> ∅))) w with
              | (Done _, w') => (Done None, w', [multipartPayload])
              | (Panicked p, w') => (Panicked p, w', [multipartPayload])
              end
          end
      end
  end.

End Upload.

(** ** Running a handler after another *)

(** World [w] as it looks when the run that produced it started from the
    logs of [w0] instead of empty logs. *)
Definition after (w0 w : World) : World :=
  {| ctx := ctx w;
     facade := facade w0 ++ facade w;
     codec := codec w0 ++ codec w;
     logged := logged w0 ++ logged w;
     header_calls := header_calls w0 ++ header_calls w |}.

(** Handler [m] entered on the context of [w0], its logs appended to
    those of [w0]. *)
Definition resume {A} (w0 : World) (m : M A) : Res A * World :=
  let (r, w) := m (enter (ctx w0)) in (r, after w0 w).

(** The parts of a context that belong to the request and to the handler
    chain, as opposed to the response. *)
Definition same_request (c c' : Context) : Prop :=
  Params c' = Params c ∧ QueryValues c' = QueryValues c
  ∧ Keys c' = Keys c ∧ Aborted c' = Aborted c.

(** A key of fewer bytes than one block, a request whose derived key is
    not a string, requests with a path query, and stubs for upload. *)
Definition key8 : list byte := replicate 8 x2a.

Definition deleteBadKeyRequest : Context :=
  request [("parameters", "/a.jpg")] ∅ (<["key" := IInt 7]> ∅).

Definition pathQueryRequest (path : string) : Context :=
  request [] (<["path" := [path]]> ∅) ∅.

Definition failingProcessor (e : error) : Processor :=
  {| SecurePathKey := key32;
     ProcessContext := λ _ _, (None, Some e);
     GetSizes := λ _, (None, Some e);
     GetStorageByFileExist := λ _, None;
     Delete := λ _, Some e;
     DeleteChild := λ _, Some e;
     SetSecuredOptions := λ c _, c |}.

Definition stubBindOk (c : Context) (payload : list byte) :
    list byte * option error :=
  ([x89; x50], None).

Definition stubBindFail (c : Context) (payload : list byte) :
    list byte * option error :=
  (payload, Some (ErrOther "Required")).

Definition stubUpload (payload : list byte) : option ImageFile * option error :=
  (Some stubFile, None).

Definition stubUploadFail (payload : list byte) : option ImageFile * option error :=
  (None, Some (ErrOther "storage unavailable")).

(** A processor that answers every [ProcessContext] with the given file
    pointer, a file that declares no header, and one that declares a
    header with an empty value. *)
Definition fileProcessor (file : option ImageFile) : Processor :=
  {| SecurePathKey := key32;
     ProcessContext := λ _ _, (file, None);
     GetSizes := λ _, (Some {| Width := 4; Height := 3; Bytes := 12 |}, None);
     GetStorageByFileExist := λ _, Some {| StorageName := "fs" |};
     Delete := λ _, None;
     DeleteChild := λ _, None;
     SetSecuredOptions := λ c _, c |}.

Definition plainFile : ImageFile :=
  {| Filepath := "a/b.jpg"; Key := "k1"; Headers := ∅; FileStorage := None |}.

Definition emptyHeaderFile : ImageFile :=
  {| Filepath := "a/b.jpg"; Key := "k1";
     Headers := <["x-powered-by" := EmptyString]> ∅; FileStorage := None |}.

(** A request that already carries an X-Powered-By response header. *)
Definition poweredRequest : Context :=
  {| Params := []; QueryValues := ∅; Keys := ∅;
     Writer := {| Status := StatusOK;
                  Header := <["X-Powered-By" := ["gin"]]> ∅;
                  Body := [] |};
     Aborted := false |}.

(** ** Properties of the handlers *)

Ltac step_handler :=
  unfold c_Param, c_Query, c_Get, c_MustGet, c_String, c_Data, c_JSON,
    c_Redirect, c_Render, c_Status, c_AbortWithStatus, c_Header,
    call_ProcessContext, call_GetSizes, modify_Writer, record_facade,
    record_codec, record_log, record_header, put_ctx, get_ctx, from_option,
    assert_string, assert_map, raise, M_bind, M_ret, enter; cbn.

Section Properties.

Variable range_order : gmap string string → list (string * string).
Hypothesis range_order_perm : ∀ m, range_order m ≡ₚ map_to_list m.
Variable Decode : string → list byte → list byte → string * option error.
Variable ContentType : ImageFile → string.
Variable Content : ImageFile → list byte.
Variable URL : ImageFile → string.
Variable Path : ImageFile → string.
Variable Filename : ImageFile → string.
Variable json_Marshal : gmap string iface → list byte.
Variable http_Redirect : Context → string → Z → ResponseWriter.
Variable h : handlers.

Abbreviation display := (handlers_display range_order ContentType Content h).
Abbreviation get := (handlers_get URL Path Filename json_Marshal h).
Abbreviation redirect := (handlers_redirect URL http_Redirect h).
Abbreviation delete_ := (handlers_delete h).
Abbreviation info := (handlers_info URL Path Filename json_Marshal h).
Abbreviation exist := (handlers_exist h).
Abbreviation securePath := (handlers_securePath Decode h).
Abbreviation secureDisplay :=
  (handlers_secureDisplay range_order Decode ContentType Content h).
Abbreviation secureGet := (handlers_secureGet Decode URL Path Filename json_Marshal h).
Abbreviation secureRedirect := (handlers_secureRedirect Decode URL http_Redirect h).

(** The range loop of [display]: every entry goes through [c.Header], in
    the order of the enumeration, and nothing else changes. *)
Lemma for_range_c_Header (l : list (string * string)) (w : World) :
  for_range l (λ kv, c_Header kv.1 kv.2) w =
  (Done tt,
   {| ctx := with_Writer
               (with_Header (Header_fold l (Header (Writer (ctx w))))
                  (Writer (ctx w))) (ctx w);
      facade := facade w; codec := codec w; logged := logged w;
      header_calls := header_calls w ++ l |}).
Proof.
  revert w. induction l as [|[k v] l IH];
    intros [[ps q ks [st hd bd] ab] f cd lg hc]; cbn.
  - by rewrite app_nil_r.
  - step_handler. rewrite IH. cbn.
    by rewrite <- app_assoc.
Qed.

(** C4: the options are a fixed function of the intent: on every request
    [display] invokes [ProcessContext] once with async and load set,
    [get] and [redirect] invoke it once with both cleared. *)
Theorem options_fixed_by_intent (c : Context) (init : ProcessingOptions) :
  resolved_options init (facade (display (enter c)).2)
    = [ {| async := true; load := true |} ]
  ∧ resolved_options init (facade (get (enter c)).2)
    = [ {| async := false; load := false |} ]
  ∧ resolved_options init (facade (redirect (enter c)).2)
    = [ {| async := false; load := false |} ].
Proof.
  split; [|split].
  - unfold handlers_display. step_handler.
    destruct (ProcessContext (processor h) c _) as [[f|] [e|]]; cbn; try done.
    rewrite for_range_c_Header. by cbn.
  - unfold handlers_get. step_handler.
    destruct (ProcessContext (processor h) c _) as [f [e|]]; cbn; try done.
    destruct (GetSizes (processor h) f) as [[sz|] [e|]];
      destruct f; by cbn.
  - unfold handlers_redirect. step_handler.
    destruct (ProcessContext (processor h) c _) as [[f|] [e|]]; by cbn.
Qed.

(** C6: a delete request with an empty path parameter and no derived key
    returns the Unprocessable error (status 422), leaves the response
    untouched and invokes no method of the facade. *)
Theorem delete_nothing_to_delete (c : Context) :
  Param c "parameters" = EmptyString →
  Keys c !! "key" = None →
  handlers_delete h (enter c) = (Done (Some ErrUnprocessable), enter c)
  ∧ facade (handlers_delete h (enter c)).2 = []
  ∧ failure_status ErrUnprocessable = Some 422.
Proof.
  intros Hpath Hkey. unfold handlers_delete. step_handler.
  unfold Get. rewrite Hpath, Hkey. cbn. done.
Qed.

(** C5: a delete request with a non-empty path parameter and no derived
    key invokes the facade's delete-by-path, once, with the path stripped
    of its leading character (the separator gin leaves in front of a
    wildcard parameter), and invokes nothing else. *)
Theorem delete_by_path_strips_leading (c : Context) (a : ascii) (rest : string) :
  Param c "parameters" = String a rest →
  Keys c !! "key" = None →
  facade (handlers_delete h (enter c)).2 = [CallDelete rest]
  ∧ ((handlers_delete h (enter c)).1 = Done (Delete (processor h) rest)).
Proof.
  intros Hpath Hkey. unfold handlers_delete. step_handler.
  unfold Get. rewrite Hpath, Hkey. cbn.
  destruct (Delete (processor h) rest); done.
Qed.

(** C3, as the code has it: when a derived key is attached the file is
    deleted by key, whatever the path parameter; it is deleted by path
    when no key is attached and the path parameter is not empty; and a
    delete-by-path call is only ever made on a request without a key. *)
Theorem delete_key_takes_precedence (c : Context) :
  (∀ k, Keys c !! "key" = Some (IString k) →
        facade (handlers_delete h (enter c)).2 = [CallDeleteChild k])
  ∧ (∀ a rest, Keys c !! "key" = None → Param c "parameters" = String a rest →
        facade (handlers_delete h (enter c)).2 = [CallDelete rest])
  ∧ (∀ p, CallDelete p ∈ facade (handlers_delete h (enter c)).2 →
        Keys c !! "key" = None ∧ Param c "parameters" ≠ EmptyString).
Proof.
  split; [|split].
  - intros k Hkey. unfold handlers_delete. step_handler.
    unfold Get. rewrite Hkey. cbn. rewrite andb_false_r. cbn.
    destruct (DeleteChild (processor h) k); done.
  - intros a rest Hkey Hpath. unfold handlers_delete. step_handler.
    unfold Get. rewrite Hpath, Hkey. cbn.
    destruct (Delete (processor h) rest); done.
  - intros p. unfold handlers_delete. step_handler. unfold Get.
    destruct (Keys c !! "key") as [v|] eqn:Hkey; cbn.
    + rewrite andb_false_r. cbn.
      destruct v; cbn; try (intros Hin; by apply elem_of_nil in Hin).
      destruct (DeleteChild (processor h) s); cbn; intros Hin;
        apply list_elem_of_singleton in Hin; discriminate.
    + destruct (Param c "parameters") as [|a rest] eqn:Hpath; cbn.
      * intros Hin. by apply elem_of_nil in Hin.
      * done.
Qed.

(** C7: an info or exist request whose path query parameter is empty is
    answered with status 400, returns no error, and invokes no method of
    the facade. *)
Theorem info_exist_empty_path (c : Context) :
  Query c "path" = EmptyString →
  let wi := (handlers_info URL Path Filename json_Marshal h (enter c)).2 in
  let we := (handlers_exist h (enter c)).2 in
  (handlers_info URL Path Filename json_Marshal h (enter c)).1 = Done None
  ∧ Status (Writer (ctx wi)) = 400 ∧ facade wi = []
  ∧ (handlers_exist h (enter c)).1 = Done None
  ∧ Status (Writer (ctx we)) = 400 ∧ facade we = [].
Proof.
  intros Hq. unfold handlers_info, handlers_exist. step_handler.
  rewrite Hq. cbn. done.
Qed.

(** What [securePath] does on a context whose parameters hold a string
    path, with key material of at least one block: one codec call on the
    two slices of the key, then the branch on the codec's answer. *)
Lemma securePath_run (c : Context) (ps : gmap string iface) (tok : string) :
  Keys c !! "parameters" = Some (IMap ps) →
  ps !! "path" = Some (IString tok) →
  (BlockSize ≤ length (SecurePathKey (processor h)))%nat →
  let key := take BlockSize (SecurePathKey (processor h)) in
  let iv := drop BlockSize (SecurePathKey (processor h)) in
  let call := {| token := tok; cipherKey := key; initVector := iv |} in
  securePath (enter c) =
  match Decode tok key iv with
  | (_, Some e) =>
      (Done (Some e),
       {| ctx := abort (with_Writer (with_Status StatusNotFound (Writer c)) c);
          facade := []; codec := [call]; logged := []; header_calls := [] |})
  | (path, None) =>
      (Done None,
       {| ctx := SetSecuredOptions (processor h) c path;
          facade := [CallSetSecuredOptions path]; codec := [call];
          logged := [ {| message := "Path decoded"; fields := [("path", path)] |} ];
          header_calls := [] |})
  end.
Proof.
  intros Hps Htok Hlen. unfold handlers_securePath. step_handler.
  unfold Get. rewrite Hps. cbn. unfold map_index. rewrite Htok. cbn.
  unfold slice_to, slice_from.
  destruct (decide _) as [_|Hn]; [|done]. cbn.
  by destruct (Decode tok _ _) as [path [e|]].
Qed.

(** C1: on the three secured routes, when the codec rejects the token the
    response status is 404 and its headers and body are those the handler
    found (so the response is the same whatever the codec's error was),
    the context is marked aborted, and neither the underlying handler nor
    any method of the facade is invoked. *)
Theorem secure_decode_failure_not_found
    (c : Context) (ps : gmap string iface) (tok path : string) (e : error) :
  Keys c !! "parameters" = Some (IMap ps) →
  ps !! "path" = Some (IString tok) →
  (BlockSize ≤ length (SecurePathKey (processor h)))%nat →
  Decode tok (take BlockSize (SecurePathKey (processor h)))
             (drop BlockSize (SecurePathKey (processor h))) = (path, Some e) →
  ∀ sh, sh ∈ [secureDisplay; secureGet; secureRedirect] →
    (sh (enter c)).1 = Done (Some e)
    ∧ Status (Writer (ctx (sh (enter c)).2)) = 404
    ∧ Header (Writer (ctx (sh (enter c)).2)) = Header (Writer c)
    ∧ Body (Writer (ctx (sh (enter c)).2)) = Body (Writer c)
    ∧ Aborted (ctx (sh (enter c)).2) = true
    ∧ facade (sh (enter c)).2 = []
    ∧ logged (sh (enter c)).2 = [].
Proof.
  intros Hps Htok Hlen Hdec sh Hsh.
  pose proof (securePath_run c ps tok Hps Htok Hlen) as Hrun.
  cbn zeta in Hrun. rewrite Hdec in Hrun.
  assert (sh (enter c) = securePath (enter c)) as ->; [|by rewrite Hrun].
  repeat (apply elem_of_cons in Hsh as [->|Hsh]);
    [| | | by apply elem_of_nil in Hsh];
    unfold handlers_secureDisplay, handlers_secureGet, handlers_secureRedirect;
    unfold M_bind; by rewrite Hrun.
Qed.

(** C2, as the code has it: the cipher-key segment is the first block of
    the key material and the initialization-vector segment is all that
    follows it, so the two are contiguous, the first is exactly one block
    long, and the second is one block long exactly when the key material
    is two blocks long. *)
Theorem securePath_key_segments (c : Context) (ps : gmap string iface) (tok : string) :
  Keys c !! "parameters" = Some (IMap ps) →
  ps !! "path" = Some (IString tok) →
  (BlockSize ≤ length (SecurePathKey (processor h)))%nat →
  ∃ key iv,
    codec (securePath (enter c)).2
      = [ {| token := tok; cipherKey := key; initVector := iv |} ]
    ∧ (key ++ iv)%list = SecurePathKey (processor h)
    ∧ length key = BlockSize
    ∧ length iv = (length (SecurePathKey (processor h)) - BlockSize)%nat
    ∧ (length iv = BlockSize ↔
       length (SecurePathKey (processor h)) = (2 * BlockSize)%nat).
Proof.
  intros Hps Htok Hlen.
  exists (take BlockSize (SecurePathKey (processor h))),
         (drop BlockSize (SecurePathKey (processor h))).
  rewrite (securePath_run c ps tok Hps Htok Hlen). cbn zeta.
  split; [by destruct (Decode tok _ _) as [path [e|]]|].
  rewrite take_drop, length_take, length_drop. unfold BlockSize in *.
  split; [done|lia].
Qed.

(** C10: the type assertions of [securePath] are unguarded: when the
    context has no "parameters" entry, or the entry is not a
    [map[string]interface{}], or its "path" is absent or not a string, the
    step panics, and so does each secured handler, before anything is
    written or invoked; no error is returned. *)
Theorem securePath_unguarded_assertions (c : Context) :
  Keys c !! "parameters" = None
  ∨ (∃ v, Keys c !! "parameters" = Some v ∧ ∀ m, v ≠ IMap m)
  ∨ (∃ m, Keys c !! "parameters" = Some (IMap m)
          ∧ ∀ s, m !! "path" ≠ Some (IString s)) →
  ∃ p, ∀ sh, sh ∈ [securePath; secureDisplay; secureGet; secureRedirect] →
    sh (enter c) = (Panicked p, enter c).
Proof.
  intros Hc.
  assert (∃ p, securePath (enter c) = (Panicked p, enter c)) as [p Hp].
  { unfold handlers_securePath. step_handler. unfold Get.
    destruct Hc as [Hnone|[(v & Hv & Hnot)|(m & Hm & Hnot)]].
    - rewrite Hnone. cbn. eauto.
    - rewrite Hv. cbn. destruct v; cbn; eauto. by destruct (Hnot m).
    - rewrite Hm. cbn. unfold map_index.
      destruct (m !! "path") as [[]|] eqn:Hpath; cbn; eauto.
      by destruct (Hnot s). }
  exists p. intros sh Hsh.
  repeat (apply elem_of_cons in Hsh as [->|Hsh]);
    [done| | | | by apply elem_of_nil in Hsh];
    unfold handlers_secureDisplay, handlers_secureGet, handlers_secureRedirect;
    unfold M_bind; by rewrite Hp.
Qed.

(** *** The response headers of [display] *)

Lemma canonical_Cache_Control : CanonicalMIMEHeaderKey "Cache-Control" = "Cache-Control".
Proof. reflexivity. Qed.

Lemma Header_apply_lookup_ne (k v K : string) (hm : gmap string (list string)) :
  CanonicalMIMEHeaderKey k ≠ K → Header_apply k v hm !! K = hm !! K.
Proof.
  intros Hne. unfold Header_apply, Header_Del, Header_Set.
  destruct (decide _); [by rewrite lookup_delete_ne|by rewrite lookup_insert_ne].
Qed.

Lemma Header_apply_lookup_eq (k v : string) (hm : gmap string (list string)) :
  v ≠ EmptyString → Header_apply k v hm !! CanonicalMIMEHeaderKey k = Some [v].
Proof.
  intros Hv. unfold Header_apply, Header_Set.
  destruct (decide _); [done|by rewrite lookup_insert_eq].
Qed.

Lemma Header_fold_snoc (l : list (string * string)) (kv : string * string)
    (hm : gmap string (list string)) :
  Header_fold (l ++ [kv]) hm = Header_apply kv.1 kv.2 (Header_fold l hm).
Proof. unfold Header_fold. by rewrite foldl_snoc. Qed.

(** After a sequence of [c.Header] calls, a name that was given one and
    the same non-empty value by every call that canonicalizes to it
    carries that value. *)
Lemma Header_fold_lookup_agree (l : list (string * string)) (k v : string)
    (hm : gmap string (list string)) :
  (k, v) ∈ l → v ≠ EmptyString →
  (∀ k' v', (k', v') ∈ l →
     CanonicalMIMEHeaderKey k' = CanonicalMIMEHeaderKey k → v' = v) →
  Header_fold l hm !! CanonicalMIMEHeaderKey k = Some [v].
Proof.
  induction l as [|[k' v'] l IH] using rev_ind; intros Hin Hv Hagree.
  - by apply elem_of_nil in Hin.
  - rewrite Header_fold_snoc. cbn.
    destruct (decide (CanonicalMIMEHeaderKey k' = CanonicalMIMEHeaderKey k))
      as [Heq|Hne].
    + rewrite (Hagree k' v'); [|apply elem_of_app; right; apply list_elem_of_singleton; done|done].
      rewrite <- Heq. by apply Header_apply_lookup_eq.
    + rewrite Header_apply_lookup_ne by done.
      apply IH; [|done|].
      * apply elem_of_app in Hin as [Hin|Hin]; [done|].
        apply list_elem_of_singleton in Hin. congruence.
      * intros k2 v2 Hin2. apply Hagree. apply elem_of_app. by left.
Qed.

(** Names that no call canonicalizes to are left as they were. *)
Lemma Header_fold_lookup_other (l : list (string * string)) (K : string)
    (hm : gmap string (list string)) :
  (∀ k v, (k, v) ∈ l → CanonicalMIMEHeaderKey k ≠ K) →
  Header_fold l hm !! K = hm !! K.
Proof.
  induction l as [|[k' v'] l IH] using rev_ind; intros Hother; [done|].
  rewrite Header_fold_snoc. cbn. rewrite Header_apply_lookup_ne.
  - apply IH. intros k v Hin. apply (Hother k v). apply elem_of_app. by left.
  - apply (Hother k' v'). apply elem_of_app. right. by apply list_elem_of_singleton.
Qed.

Lemma writeContentType_lookup_keep (ct : list string) (K x : string) (r : list string)
    (hm : gmap string (list string)) :
  hm !! K = Some (x :: r) → writeContentType ct hm !! K = Some (x :: r).
Proof.
  intros HK. unfold writeContentType.
  destruct (decide (K = "Content-Type")) as [->|Hne].
  - by rewrite HK.
  - destruct (hm !! "Content-Type") as [[|??]|]; [|done|];
      by rewrite lookup_insert_ne.
Qed.

Lemma writeContentType_lookup_absent (ct : list string) (hm : gmap string (list string)) :
  hm !! "Content-Type" = None → writeContentType ct hm !! "Content-Type" = Some ct.
Proof. intros HK. unfold writeContentType. rewrite HK. by rewrite lookup_insert_eq. Qed.

Lemma elem_of_range_order (m : gmap string string) (k v : string) :
  (k, v) ∈ range_order m ↔ m !! k = Some v.
Proof. rewrite (range_order_perm m). apply elem_of_map_to_list. Qed.

(** What [display] does when the facade returns a file. *)
Lemma display_run (c : Context) (file : ImageFile) :
  ProcessContext (processor h) c [WithAsync true; WithLoad true] = (Some file, None) →
  display (enter c) =
  (Done None,
   {| ctx := with_Writer
               {| Status := StatusOK;
                  Header := writeContentType [ContentType file]
                              (Header_apply "Cache-Control" "must-revalidate"
                                 (Header_fold (range_order (Headers file))
                                    (Header (Writer c))));
                  Body := Body (Writer c) ++ Content file |} c;
      facade := [CallProcessContext [WithAsync true; WithLoad true]];
      codec := []; logged := [];
      header_calls := range_order (Headers file)
                        ++ [("Cache-Control", "must-revalidate")] |}).
Proof.
  intros Hfile. unfold handlers_display. step_handler. rewrite Hfile. cbn.
  rewrite for_range_c_Header. by cbn.
Qed.

(** C8, as the code has it: on a successful display request the status is
    200 and the FileResult's content is written to the body; every header
    the facade declared is handed as it is to [c.Header], and then
    Cache-Control is set to must-revalidate. In the resulting response
    Cache-Control is must-revalidate; a declared header with a non-empty
    value whose canonical name is not Cache-Control, and is not given
    another value under another spelling, is present with its value; and
    Content-Type is the FileResult's content type when no declared header
    and no earlier step set one. *)
Theorem display_success_response (c : Context) (file : ImageFile) :
  ProcessContext (processor h) c [WithAsync true; WithLoad true] = (Some file, None) →
  let w := (display (enter c)).2 in
  (display (enter c)).1 = Done None
  ∧ Status (Writer (ctx w)) = 200
  ∧ Body (Writer (ctx w)) = (Body (Writer c) ++ Content file)%list
  ∧ (∃ l, l ≡ₚ map_to_list (Headers file)
          ∧ header_calls w = (l ++ [("Cache-Control", "must-revalidate")])%list)
  ∧ Header (Writer (ctx w)) !! "Cache-Control" = Some ["must-revalidate"]
  ∧ (∀ k v, Headers file !! k = Some v → v ≠ EmptyString →
       CanonicalMIMEHeaderKey k ≠ "Cache-Control" →
       (∀ k' v', Headers file !! k' = Some v' →
          CanonicalMIMEHeaderKey k' = CanonicalMIMEHeaderKey k → v' = v) →
       Header (Writer (ctx w)) !! CanonicalMIMEHeaderKey k = Some [v])
  ∧ ((∀ k v, Headers file !! k = Some v →
        CanonicalMIMEHeaderKey k ≠ "Content-Type") →
     Header (Writer c) !! "Content-Type" = None →
     Header (Writer (ctx w)) !! "Content-Type" = Some [ContentType file]).
Proof.
  intros Hfile w. subst w. rewrite (display_run c file Hfile). cbn.
  repeat split.
  - eauto.
  - apply writeContentType_lookup_keep.
    rewrite <- canonical_Cache_Control at 2. by apply Header_apply_lookup_eq.
  - intros k v Hk Hv Hcc Hagree. apply writeContentType_lookup_keep.
    rewrite Header_apply_lookup_ne by (rewrite canonical_Cache_Control; congruence).
    apply Header_fold_lookup_agree; [by apply elem_of_range_order|done|].
    intros k' v' Hin. apply Hagree. by apply elem_of_range_order.
  - intros Hnone Hinit. apply writeContentType_lookup_absent.
    rewrite Header_apply_lookup_ne by done.
    rewrite Header_fold_lookup_other; [done|].
    intros k v Hin. apply (Hnone k v). by apply elem_of_range_order.
Qed.

(** C9: the forced Cache-Control is written after the declared headers
    are copied: when the FileResult's headers hold a Cache-Control entry,
    that entry is handed to [c.Header] before the forced one, and the
    response's Cache-Control is must-revalidate alone. *)
Theorem display_cache_control_forced (c : Context) (file : ImageFile) (v : string) :
  ProcessContext (processor h) c [WithAsync true; WithLoad true] = (Some file, None) →
  Headers file !! "Cache-Control" = Some v →
  let w := (display (enter c)).2 in
  Header (Writer (ctx w)) !! "Cache-Control" = Some ["must-revalidate"]
  ∧ ∃ l1 l2, header_calls w =
      (l1 ++ ("Cache-Control", v) :: l2 ++ [("Cache-Control", "must-revalidate")])%list.
Proof.
  intros Hfile Hcc w. subst w. rewrite (display_run c file Hfile). cbn. split.
  - apply writeContentType_lookup_keep.
    rewrite <- canonical_Cache_Control at 2. by apply Header_apply_lookup_eq.
  - apply elem_of_range_order, list_elem_of_split in Hcc as (l1 & l2 & ->).
    exists l1, l2. by rewrite <- app_assoc.
Qed.

(** ** Further properties *)

(** *** Handlers run after another step *)

(** The three processing handlers do not read the logs: run from any world
    they do what they do from empty logs, appended to what was there. *)
Lemma display_resume (w : World) : display w = resume w display.
Proof.
  destruct w as [c f cd lg hc]. unfold resume, after, handlers_display.
  unfold call_ProcessContext, M_bind, get_ctx, record_facade, M_ret,
    from_option, raise, enter. cbn.
  destruct (ProcessContext (processor h) c _) as [[file|] [e|]]; cbn;
    rewrite ?app_nil_r; try done.
  rewrite !for_range_c_Header. step_handler.
  by rewrite ?app_nil_r, <- ?app_assoc.
Qed.

Lemma get_resume (w : World) : get w = resume w get.
Proof.
  destruct w as [c f cd lg hc]. unfold resume, after, handlers_get.
  step_handler.
  destruct (ProcessContext (processor h) c _) as [file [e|]]; cbn;
    rewrite ?app_nil_r; try done.
  destruct (GetSizes (processor h) file) as [[sz|] [e|]];
    destruct file; cbn; by rewrite ?app_nil_r, <- ?app_assoc.
Qed.

Lemma redirect_resume (w : World) : redirect w = resume w redirect.
Proof.
  destruct w as [c f cd lg hc]. unfold resume, after, handlers_redirect.
  step_handler.
  destruct (ProcessContext (processor h) c _) as [[file|] [e|]]; cbn;
    by rewrite ?app_nil_r.
Qed.

(** [securePath] either panics before doing anything, or reaches the
    codec with a token and key material of at least one block. *)
Lemma securePath_outcomes (c : Context) :
  securePath (enter c) = (Panicked (PanicKeyNotExist "parameters"), enter c)
  ∨ securePath (enter c) = (Panicked PanicInterfaceConversion, enter c)
  ∨ securePath (enter c) = (Panicked PanicSliceBounds, enter c)
  ∨ ∃ ps tok, Keys c !! "parameters" = Some (IMap ps)
              ∧ ps !! "path" = Some (IString tok)
              ∧ (BlockSize ≤ length (SecurePathKey (processor h)))%nat.
Proof.
  unfold handlers_securePath. step_handler. unfold Get, map_index.
  destruct (Keys c !! "parameters") as [[| | | |ps]|] eqn:Hv; cbn; auto.
  destruct (ps !! "path") as [[|tok| | |]|] eqn:Hp; cbn; auto.
  unfold slice_to, slice_from.
  destruct (decide (BlockSize ≤ length (SecurePathKey (processor h)))%nat);
    cbn; [|by auto].
  do 3 right. eauto.
Qed.

(** X1: key material shorter than one block makes [securePath], and each
    secured handler, panic on the slice expression: the codec is not
    called and nothing is written. *)
Theorem securePath_short_key_panics
    (c : Context) (ps : gmap string iface) (tok : string) :
  Keys c !! "parameters" = Some (IMap ps) →
  ps !! "path" = Some (IString tok) →
  (length (SecurePathKey (processor h)) < BlockSize)%nat →
  securePath (enter c) = (Panicked PanicSliceBounds, enter c)
  ∧ secureDisplay (enter c) = (Panicked PanicSliceBounds, enter c)
  ∧ secureGet (enter c) = (Panicked PanicSliceBounds, enter c)
  ∧ secureRedirect (enter c) = (Panicked PanicSliceBounds, enter c).
Proof.
  intros Hps Htok Hlen.
  assert (securePath (enter c) = (Panicked PanicSliceBounds, enter c)) as Hp.
  { unfold handlers_securePath. step_handler.
    unfold Get. rewrite Hps. cbn. unfold map_index. rewrite Htok. cbn.
    unfold slice_to. destruct (decide _); [lia|done]. }
  repeat split; [done| | |];
    unfold handlers_secureDisplay, handlers_secureGet, handlers_secureRedirect;
    unfold M_bind; by rewrite Hp.
Qed.

(** X2: when the codec accepts the token, a secured handler is its
    unsecured handler run on the context [SetSecuredOptions] produced from
    the decoded path, after one codec call, one log line carrying the
    decoded path and the [SetSecuredOptions] call. *)
Theorem secure_success_resumes_handler
    (c : Context) (ps : gmap string iface) (tok path : string) :
  Keys c !! "parameters" = Some (IMap ps) →
  ps !! "path" = Some (IString tok) →
  (BlockSize ≤ length (SecurePathKey (processor h)))%nat →
  Decode tok (take BlockSize (SecurePathKey (processor h)))
             (drop BlockSize (SecurePathKey (processor h))) = (path, None) →
  let decoded :=
    {| ctx := SetSecuredOptions (processor h) c path;
       facade := [CallSetSecuredOptions path];
       codec := [ {| token := tok;
                     cipherKey := take BlockSize (SecurePathKey (processor h));
                     initVector := drop BlockSize (SecurePathKey (processor h)) |} ];
       logged := [ {| message := "Path decoded"; fields := [("path", path)] |} ];
       header_calls := [] |} in
  securePath (enter c) = (Done None, decoded)
  ∧ secureDisplay (enter c) = resume decoded display
  ∧ secureGet (enter c) = resume decoded get
  ∧ secureRedirect (enter c) = resume decoded redirect.
Proof.
  intros Hps Htok Hlen Hdec decoded.
  pose proof (securePath_run c ps tok Hps Htok Hlen) as Hrun.
  cbn zeta in Hrun. rewrite Hdec in Hrun. fold decoded in Hrun.
  repeat split; [done| | |];
    unfold handlers_secureDisplay, handlers_secureGet, handlers_secureRedirect;
    unfold M_bind; rewrite Hrun;
    [apply display_resume | apply get_resume | apply redirect_resume].
Qed.

Lemma resume_facade {A} (w0 : World) (m : M A) :
  facade (resume w0 m).2 = (facade w0 ++ facade (m (enter (ctx w0))).2)%list.
Proof. unfold resume. by destruct (m (enter (ctx w0))). Qed.

(** The facade calls of a secured handler: none, or [SetSecuredOptions] on
    the decoded path followed by the calls of the unsecured handler on the
    context it produced. *)
Lemma secured_facade_calls (c : Context) :
  (facade (secureDisplay (enter c)).2 = []
   ∧ facade (secureGet (enter c)).2 = []
   ∧ facade (secureRedirect (enter c)).2 = [])
  ∨ ∃ ps tok path,
      Keys c !! "parameters" = Some (IMap ps)
      ∧ ps !! "path" = Some (IString tok)
      ∧ Decode tok (take BlockSize (SecurePathKey (processor h)))
                   (drop BlockSize (SecurePathKey (processor h))) = (path, None)
      ∧ let c' := SetSecuredOptions (processor h) c path in
        facade (secureDisplay (enter c)).2
          = CallSetSecuredOptions path :: facade (display (enter c')).2
        ∧ facade (secureGet (enter c)).2
          = CallSetSecuredOptions path :: facade (get (enter c')).2
        ∧ facade (secureRedirect (enter c)).2
          = CallSetSecuredOptions path :: facade (redirect (enter c')).2.
Proof.
  destruct (securePath_outcomes c) as [Hp|[Hp|[Hp|(ps & tok & Hps & Htok & Hlen)]]];
    try (left; unfold handlers_secureDisplay, handlers_secureGet,
           handlers_secureRedirect, M_bind; by rewrite Hp).
  destruct (Decode tok (take BlockSize (SecurePathKey (processor h)))
              (drop BlockSize (SecurePathKey (processor h))))
    as [path [e|]] eqn:Hdec.
  - left. pose proof (securePath_run c ps tok Hps Htok Hlen) as Hrun.
    cbn zeta in Hrun. rewrite Hdec in Hrun.
    unfold handlers_secureDisplay, handlers_secureGet, handlers_secureRedirect,
      M_bind. by rewrite Hrun.
  - right. exists ps, tok, path.
    pose proof (securePath_run c ps tok Hps Htok Hlen) as Hrun.
    cbn zeta in Hrun. rewrite Hdec in Hrun.
    match type of Hrun with _ = (_, ?W) => set (decoded := W) in * end.
    repeat split; try done;
      unfold handlers_secureDisplay, handlers_secureGet, handlers_secureRedirect,
        M_bind; rewrite Hrun.
    + by rewrite (display_resume decoded), resume_facade.
    + by rewrite (get_resume decoded), resume_facade.
    + by rewrite (redirect_resume decoded), resume_facade.
Qed.

(** X3: a secured handler reaches [ProcessContext] only through a
    successful decode: whenever its facade log holds a [ProcessContext]
    call, the request carried a string token, the codec accepted it, and
    the first call on the facade was [SetSecuredOptions] on the decoded
    path. *)
Theorem secured_processing_requires_decode (c : Context) (opts : list Option) :
  ∀ sh, sh ∈ [secureDisplay; secureGet; secureRedirect] →
  CallProcessContext opts ∈ facade (sh (enter c)).2 →
  ∃ ps tok path,
    Keys c !! "parameters" = Some (IMap ps)
    ∧ ps !! "path" = Some (IString tok)
    ∧ Decode tok (take BlockSize (SecurePathKey (processor h)))
                 (drop BlockSize (SecurePathKey (processor h))) = (path, None)
    ∧ head (facade (sh (enter c)).2) = Some (CallSetSecuredOptions path).
Proof.
  intros sh Hsh Hin.
  destruct (secured_facade_calls c)
    as [(Hd & Hg & Hr)|(ps & tok & path & Hps & Htok & Hdec & Hd & Hg & Hr)].
  - repeat (apply elem_of_cons in Hsh as [->|Hsh]);
      [rewrite Hd in Hin|rewrite Hg in Hin|rewrite Hr in Hin|];
      by apply elem_of_nil in Hin || by apply elem_of_nil in Hsh.
  - exists ps, tok, path. repeat split; try done.
    repeat (apply elem_of_cons in Hsh as [->|Hsh]);
      [by rewrite Hd|by rewrite Hg|by rewrite Hr|by apply elem_of_nil in Hsh].
Qed.

Lemma facade_display_options (c : Context) (init : ProcessingOptions) :
  resolved_options init (facade (display (enter c)).2)
  = [ {| async := true; load := true |} ].
Proof.
  unfold handlers_display, call_ProcessContext, M_bind, get_ctx, record_facade,
    M_ret, from_option, raise, enter. cbn.
  destruct (ProcessContext (processor h) c _) as [[f|] [e|]]; cbn; try done.
  rewrite for_range_c_Header. by step_handler.
Qed.

Lemma facade_get_options (c : Context) (init : ProcessingOptions) :
  resolved_options init (facade (get (enter c)).2)
  = [ {| async := false; load := false |} ].
Proof.
  unfold handlers_get. step_handler.
  destruct (ProcessContext (processor h) c _) as [f [e|]]; cbn; try done.
  destruct (GetSizes (processor h) f) as [[sz|] [e|]]; destruct f; by cbn.
Qed.

Lemma facade_redirect_options (c : Context) (init : ProcessingOptions) :
  resolved_options init (facade (redirect (enter c)).2)
  = [ {| async := false; load := false |} ].
Proof.
  unfold handlers_redirect. step_handler.
  destruct (ProcessContext (processor h) c _) as [[f|] [e|]]; by cbn.
Qed.

(** X4: a secured handler invokes [ProcessContext] at most once, and then
    with the options of its unsecured handler: async and load set for
    secureDisplay, both cleared for secureGet and secureRedirect. *)
Theorem secured_options_as_unsecured (c : Context) (init : ProcessingOptions) :
  (resolved_options init (facade (secureDisplay (enter c)).2) = []
   ∨ resolved_options init (facade (secureDisplay (enter c)).2)
     = [ {| async := true; load := true |} ])
  ∧ (resolved_options init (facade (secureGet (enter c)).2) = []
     ∨ resolved_options init (facade (secureGet (enter c)).2)
       = [ {| async := false; load := false |} ])
  ∧ (resolved_options init (facade (secureRedirect (enter c)).2) = []
     ∨ resolved_options init (facade (secureRedirect (enter c)).2)
       = [ {| async := false; load := false |} ]).
Proof.
  destruct (secured_facade_calls c)
    as [(Hd & Hg & Hr)|(ps & tok & path & _ & _ & _ & Hd & Hg & Hr)].
  - rewrite Hd, Hg, Hr. by repeat split; left.
  - rewrite Hd, Hg, Hr.
    change (resolved_options init (CallSetSecuredOptions path :: ?l))
      with (resolved_options init l).
    rewrite facade_display_options, facade_get_options, facade_redirect_options.
    by repeat split; right.
Qed.

(** *** Errors of the facade *)

(** X5: when [ProcessContext] returns an error, display, get and redirect
    return that error as it is, after that one call on the facade: the
    context is untouched, no header is set, and get does not ask for the
    sizes. *)
Theorem process_error_returned (c : Context) :
  let failed opts e :=
    (Done (Some e),
     {| ctx := c; facade := [CallProcessContext opts]; codec := [];
        logged := []; header_calls := [] |}) in
  (∀ file e,
     ProcessContext (processor h) c [WithAsync true; WithLoad true] = (file, Some e) →
     display (enter c) = failed [WithAsync true; WithLoad true] e)
  ∧ (∀ file e,
     ProcessContext (processor h) c [WithAsync false; WithLoad false] = (file, Some e) →
     get (enter c) = failed [WithAsync false; WithLoad false] e
     ∧ redirect (enter c) = failed [WithAsync false; WithLoad false] e).
Proof.
  split.
  - intros file e He. unfold handlers_display. step_handler. by rewrite He.
  - intros file e He. unfold handlers_get, handlers_redirect. step_handler.
    by rewrite He.
Qed.

(** X6: get asks the facade for the sizes of exactly the file
    [ProcessContext] returned. An error of [GetSizes] is returned as it is
    with the context untouched; otherwise the answer is 200 with the
    marshalled object of the file's filename, path, url and key and the
    sizes' width, height and bytes. *)
Theorem get_sizes_of_processed_file (c : Context) (file : option ImageFile) :
  ProcessContext (processor h) c [WithAsync false; WithLoad false] = (file, None) →
  facade (get (enter c)).2
    = [CallProcessContext [WithAsync false; WithLoad false]; CallGetSizes file]
  ∧ (∀ sizes e, GetSizes (processor h) file = (sizes, Some e) →
       (get (enter c)).1 = Done (Some e) ∧ ctx (get (enter c)).2 = c)
  ∧ (∀ f sizes, file = Some f → GetSizes (processor h) file = (Some sizes, None) →
       (get (enter c)).1 = Done None
       ∧ Status (Writer (ctx (get (enter c)).2)) = 200
       ∧ Body (Writer (ctx (get (enter c)).2))
         = (Body (Writer c)
            ++ json_Marshal
                 (<["filename" := IString (Filename f)]>
                  (<["path" := IString (Path f)]>
                  (<["url" := IString (URL f)]>
                  (<["key" := IString (Key f)]>
                  (<["width" := IInt (Width sizes)]>
                  (<["height" := IInt (Height sizes)]>
                  (<["bytes" := IInt (Bytes sizes)]> ∅))))))))%list).
Proof.
  intros Hfile. unfold handlers_get. step_handler. rewrite Hfile. cbn.
  split; [|split].
  - destruct (GetSizes (processor h) file) as [[sz|] [e|]]; destruct file; by cbn.
  - intros sizes e Hsz. by rewrite Hsz.
  - intros f sizes -> Hsz. by rewrite Hsz.
Qed.

(** X7: delete hands back what the facade answered: an error of the
    delete call is returned as it is with nothing written; when the facade
    deletes the file the answer is 200 with the body Ok. *)
Theorem delete_outcome (c : Context) :
  let outcome (call : FacadeCall) (answer : option error) :=
    match answer with
    | Some e =>
        delete_ (enter c)
        = (Done (Some e),
           {| ctx := c; facade := [call]; codec := []; logged := [];
              header_calls := [] |})
    | None =>
        (delete_ (enter c)).1 = Done None
        ∧ facade (delete_ (enter c)).2 = [call]
        ∧ Status (Writer (ctx (delete_ (enter c)).2)) = 200
        ∧ Body (Writer (ctx (delete_ (enter c)).2))
          = (Body (Writer c) ++ list_byte_of_string "Ok")%list
    end in
  (∀ a rest, Keys c !! "key" = None → Param c "parameters" = String a rest →
     outcome (CallDelete rest) (Delete (processor h) rest))
  ∧ (∀ k, Keys c !! "key" = Some (IString k) →
     outcome (CallDeleteChild k) (DeleteChild (processor h) k)).
Proof.
  split.
  - intros a rest Hkey Hpath. unfold handlers_delete. step_handler.
    unfold Get. rewrite Hpath, Hkey. cbn.
    by destruct (Delete (processor h) rest).
  - intros k Hkey. unfold handlers_delete. step_handler.
    unfold Get. rewrite Hkey. cbn. rewrite andb_false_r. cbn.
    by destruct (DeleteChild (processor h) k).
Qed.

(** X8: a derived key that is not a string makes delete panic on the type
    assertion, whatever the path parameter: the facade is not called and
    nothing is written. *)
Theorem delete_key_not_string_panics (c : Context) (v : iface) :
  Keys c !! "key" = Some v →
  (∀ k, v ≠ IString k) →
  delete_ (enter c) = (Panicked PanicInterfaceConversion, enter c).
Proof.
  intros Hkey Hns. unfold handlers_delete. step_handler.
  unfold Get. rewrite Hkey. cbn. rewrite andb_false_r. cbn.
  destruct v; try done. by destruct (Hns s).
Qed.

(** *** Metadata lookups *)

(** X9: with a non-empty path query, info first looks the path up in the
    storages. When no storage has the file it returns the file-not-exists
    error (404) without asking for sizes and without writing; when one
    has it, it asks for the sizes of the image file made of that path and
    that storage. *)
Theorem info_storage_lookup (c : Context) :
  Query c "path" ≠ EmptyString →
  (GetStorageByFileExist (processor h) (Query c "path") = None →
     info (enter c)
     = (Done (Some ErrFileNotExists),
        {| ctx := c; facade := [CallGetStorageByFileExist (Query c "path")];
           codec := []; logged := []; header_calls := [] |})
     ∧ failure_status ErrFileNotExists = Some 404)
  ∧ (∀ storage,
       GetStorageByFileExist (processor h) (Query c "path") = Some storage →
       facade (info (enter c)).2
       = [CallGetStorageByFileExist (Query c "path");
          CallGetSizes (Some {| Filepath := Query c "path"; Key := EmptyString;
                                Headers := ∅; FileStorage := Some storage |})]).
Proof.
  intros Hq. unfold handlers_info. step_handler.
  rewrite bool_decide_eq_false_2 by done. cbn. split.
  - intros Hnone. by rewrite Hnone.
  - intros storage Hst. rewrite Hst. cbn.
    by destruct (GetSizes (processor h) _) as [[sz|] [e|]].
Qed.

(** X10: with a non-empty path query, exist makes one storage lookup on
    that path and never writes to the response: it returns nil when a
    storage has the file and the file-not-exists error otherwise, leaving
    the context as it was. *)
Theorem exist_only_looks_up (c : Context) :
  Query c "path" ≠ EmptyString →
  exist (enter c)
  = (Done (match GetStorageByFileExist (processor h) (Query c "path") with
           | Some _ => None
           | None => Some ErrFileNotExists
           end),
     {| ctx := c; facade := [CallGetStorageByFileExist (Query c "path")];
        codec := []; logged := []; header_calls := [] |}).
Proof.
  intros Hq. unfold handlers_exist. step_handler.
  rewrite bool_decide_eq_false_2 by done. cbn.
  by destruct (GetStorageByFileExist (processor h) _).
Qed.

(** X11: info and exist agree on the same request: whenever info answers
    without error so does exist, and whenever exist reports the file
    missing so does info. *)
Theorem info_exist_agree (c : Context) :
  ((info (enter c)).1 = Done None → (exist (enter c)).1 = Done None)
  ∧ ((exist (enter c)).1 = Done (Some ErrFileNotExists) →
     (info (enter c)).1 = Done (Some ErrFileNotExists)).
Proof.
  unfold handlers_info, handlers_exist. step_handler.
  destruct (bool_decide (Query c "path" = EmptyString)); cbn; [done|].
  destruct (GetStorageByFileExist (processor h) _); cbn; [|done].
  split; [done|discriminate].
Qed.

(** *** What the handlers leave alone *)

(** X12: display, get, redirect, delete, info and exist never change the
    route parameters, the query values or the keys of the context, and
    never abort it, whatever the facade answers and however they end. *)
Theorem handlers_keep_request_data (c : Context) :
  same_request c (ctx (display (enter c)).2)
  ∧ same_request c (ctx (get (enter c)).2)
  ∧ same_request c (ctx (redirect (enter c)).2)
  ∧ same_request c (ctx (delete_ (enter c)).2)
  ∧ same_request c (ctx (info (enter c)).2)
  ∧ same_request c (ctx (exist (enter c)).2).
Proof.
  unfold same_request. split; [|split; [|split; [|split; [|split]]]].
  - unfold handlers_display, call_ProcessContext, M_bind, get_ctx, record_facade,
      M_ret, from_option, raise, enter. cbn.
    destruct (ProcessContext (processor h) c _) as [[f|] [e|]]; cbn; try done.
    rewrite for_range_c_Header. by step_handler.
  - unfold handlers_get. step_handler.
    destruct (ProcessContext (processor h) c _) as [f [e|]]; cbn; try done.
    destruct (GetSizes (processor h) f) as [[sz|] [e|]]; by destruct f.
  - unfold handlers_redirect. step_handler.
    by destruct (ProcessContext (processor h) c _) as [[f|] [e|]].
  - unfold handlers_delete. step_handler. unfold Get.
    destruct (Keys c !! "key") as [[| k | | |]|]; cbn;
      rewrite ?andb_false_r, ?andb_true_r; cbn; try done.
    + by destruct (DeleteChild (processor h) k).
    + destruct (Param c "parameters") as [|a rest]; cbn; try done.
      by destruct (Delete (processor h) rest).
  - unfold handlers_info. step_handler.
    destruct (bool_decide (Query c "path" = EmptyString)); cbn; try done.
    destruct (GetStorageByFileExist (processor h) _); cbn; try done.
    by destruct (GetSizes (processor h) _) as [[sz|] [e|]].
  - unfold handlers_exist. step_handler.
    destruct (bool_decide (Query c "path" = EmptyString)); cbn; try done.
    by destruct (GetStorageByFileExist (processor h) _).
Qed.

(** *** More on the response of display *)

Lemma writeContentType_lookup_ne (ct : list string) (K : string)
    (hm : gmap string (list string)) :
  K ≠ "Content-Type" → writeContentType ct hm !! K = hm !! K.
Proof.
  intros Hne. unfold writeContentType.
  destruct (hm !! "Content-Type") as [[|??]|]; [|done|];
    by rewrite lookup_insert_ne.
Qed.

(** After a sequence of [c.Header] calls, a name that was given the empty
    value by every call that canonicalizes to it, and by one at least,
    has no value. *)
Lemma Header_fold_lookup_removed (l : list (string * string)) (k : string)
    (hm : gmap string (list string)) :
  (k, EmptyString) ∈ l →
  (∀ k' v', (k', v') ∈ l →
     CanonicalMIMEHeaderKey k' = CanonicalMIMEHeaderKey k → v' = EmptyString) →
  Header_fold l hm !! CanonicalMIMEHeaderKey k = None.
Proof.
  induction l as [|[k' v'] l IH] using rev_ind; intros Hin Hagree.
  - by apply elem_of_nil in Hin.
  - rewrite Header_fold_snoc. cbn.
    destruct (decide (CanonicalMIMEHeaderKey k' = CanonicalMIMEHeaderKey k))
      as [Heq|Hne].
    + rewrite (Hagree k' v');
        [|apply elem_of_app; right; by apply list_elem_of_singleton|done].
      unfold Header_apply.
      destruct (decide (EmptyString = EmptyString)) as [_|Hn]; [|done].
      unfold Header_Del. rewrite Heq. apply lookup_delete_eq.
    + rewrite Header_apply_lookup_ne by done.
      apply IH.
      * apply elem_of_app in Hin as [Hin|Hin]; [done|].
        apply list_elem_of_singleton in Hin. congruence.
      * intros k2 v2 Hin2. apply Hagree. apply elem_of_app. by left.
Qed.

(** X13: display leaves alone the headers it is not concerned with: a
    header already in the response, other than Cache-Control and
    Content-Type, whose name no declared header canonicalizes to, is in
    the response as it was. *)
Theorem display_keeps_other_headers (c : Context) (file : ImageFile) (K : string) :
  ProcessContext (processor h) c [WithAsync true; WithLoad true] = (Some file, None) →
  K ≠ "Cache-Control" → K ≠ "Content-Type" →
  (∀ k v, Headers file !! k = Some v → CanonicalMIMEHeaderKey k ≠ K) →
  Header (Writer (ctx (display (enter c)).2)) !! K = Header (Writer c) !! K.
Proof.
  intros Hfile Hcc Hct Hother. rewrite (display_run c file Hfile). cbn.
  rewrite writeContentType_lookup_ne by done.
  rewrite Header_apply_lookup_ne by (rewrite canonical_Cache_Control; congruence).
  apply Header_fold_lookup_other.
  intros k v Hin. apply (Hother k v). by apply elem_of_range_order.
Qed.

(** X14: when the file declares no header, display makes the one
    [c.Header] call for Cache-Control. In the response Cache-Control is
    must-revalidate; Content-Type is the file's content type when the
    response had none (no entry, or an entry without values) and is the
    one it had otherwise; every other header is as the handler found
    it. *)
Theorem display_without_declared_headers (c : Context) (file : ImageFile) :
  ProcessContext (processor h) c [WithAsync true; WithLoad true] = (Some file, None) →
  Headers file = ∅ →
  let sent := Header (Writer (ctx (display (enter c)).2)) in
  header_calls (display (enter c)).2 = [("Cache-Control", "must-revalidate")]
  ∧ sent !! "Cache-Control" = Some ["must-revalidate"]
  ∧ (Header (Writer c) !! "Content-Type" = None
     ∨ Header (Writer c) !! "Content-Type" = Some [] →
     sent !! "Content-Type" = Some [ContentType file])
  ∧ (∀ v vs, Header (Writer c) !! "Content-Type" = Some (v :: vs) →
     sent !! "Content-Type" = Some (v :: vs))
  ∧ (∀ K, K ≠ "Cache-Control" → K ≠ "Content-Type" →
     sent !! K = Header (Writer c) !! K).
Proof.
  intros Hfile Hempty sent. subst sent.
  rewrite (display_run c file Hfile). cbn.
  assert (range_order (Headers file) = []) as ->.
  { apply Permutation_nil_r. rewrite range_order_perm, Hempty.
    by rewrite map_to_list_empty. }
  cbn. split; [done|]. split; [|split; [|split]].
  - apply writeContentType_lookup_keep.
    rewrite <- canonical_Cache_Control at 2. by apply Header_apply_lookup_eq.
  - intros Hct. unfold writeContentType.
    rewrite Header_apply_lookup_ne by done.
    destruct Hct as [-> | ->]; by rewrite lookup_insert_eq.
  - intros v vs Hct. apply writeContentType_lookup_keep.
    by rewrite Header_apply_lookup_ne.
  - intros K Hcc Hct. rewrite writeContentType_lookup_ne by done.
    apply Header_apply_lookup_ne. by rewrite canonical_Cache_Control.
Qed.

(** X15: a declared header with an empty value is not sent: when every
    declared spelling of its name carries the empty value, and the name
    is neither Cache-Control nor Content-Type, the response has no header
    of that name, even if it had one before. *)
Theorem display_empty_value_removes_header (c : Context) (file : ImageFile) (k : string) :
  ProcessContext (processor h) c [WithAsync true; WithLoad true] = (Some file, None) →
  Headers file !! k = Some EmptyString →
  CanonicalMIMEHeaderKey k ≠ "Cache-Control" →
  CanonicalMIMEHeaderKey k ≠ "Content-Type" →
  (∀ k' v', Headers file !! k' = Some v' →
     CanonicalMIMEHeaderKey k' = CanonicalMIMEHeaderKey k → v' = EmptyString) →
  Header (Writer (ctx (display (enter c)).2)) !! CanonicalMIMEHeaderKey k = None.
Proof.
  intros Hfile Hk Hcc Hct Hagree. rewrite (display_run c file Hfile). cbn.
  rewrite writeContentType_lookup_ne by done.
  rewrite Header_apply_lookup_ne by (rewrite canonical_Cache_Control; congruence).
  apply Header_fold_lookup_removed; [by apply elem_of_range_order|].
  intros k' v' Hin. apply Hagree. by apply elem_of_range_order.
Qed.

(** X16: the handlers take a nil error to mean a file: when
    [ProcessContext] returns neither a file nor an error, display panics
    on the nil file before setting any header, and get panics after the
    sizes were fetched without error; in both cases nothing is written. *)
Theorem nil_file_without_error_panics (c : Context) :
  (ProcessContext (processor h) c [WithAsync true; WithLoad true] = (None, None) →
     display (enter c)
     = (Panicked PanicNilDereference,
        {| ctx := c; facade := [CallProcessContext [WithAsync true; WithLoad true]];
           codec := []; logged := []; header_calls := [] |}))
  ∧ (ProcessContext (processor h) c [WithAsync false; WithLoad false] = (None, None) →
     ∀ sizes, GetSizes (processor h) None = (sizes, None) →
     get (enter c)
     = (Panicked PanicNilDereference,
        {| ctx := c;
           facade := [CallProcessContext [WithAsync false; WithLoad false];
                      CallGetSizes None];
           codec := []; logged := []; header_calls := [] |})).
Proof.
  split.
  - intros Hnil. unfold handlers_display. step_handler. by rewrite Hnil.
  - intros Hnil sizes Hsz. unfold handlers_get. step_handler.
    rewrite Hnil. cbn. by rewrite Hsz.
Qed.

(** *** Upload *)

(** X17: upload stops at the first failure. When the request cannot be
    bound to the multipart payload it returns the binding error without
    calling [Upload], the world untouched. Once the payload is bound it
    hands exactly the bound payload to [Upload], once: an error of
    [Upload] is returned as it is with the world untouched, and a stored
    file is answered with 200 and the marshalled object of its filename,
    path and url, the request data left as they were. *)
Theorem upload_outcomes
    (Multipart : Type) (zero : Multipart)
    (Bind : Context → Multipart → Multipart * option error)
    (Upload : Multipart → option ImageFile * option error)
    (w : World) :
  let run := handlers_upload Multipart zero Bind Upload URL Path json_Marshal w in
  (∀ payload e, Bind (ctx w) zero = (payload, Some e) →
     run = (Done (Some e), w, []))
  ∧ (∀ payload, Bind (ctx w) zero = (payload, None) →
       run.2 = [payload]
       ∧ (∀ file e, Upload payload = (file, Some e) → run.1 = (Done (Some e), w))
       ∧ (∀ file, Upload payload = (Some file, None) →
            run.1.1 = Done None
            ∧ Status (Writer (ctx run.1.2)) = 200
            ∧ Body (Writer (ctx run.1.2))
              = (Body (Writer (ctx w))
                 ++ json_Marshal
                      (<["filename" := IString (Filepath file)]>
                       (<["path" := IString (Path file)]>
                       (<["url" := IString (URL file)]> ∅))))%list
            ∧ facade run.1.2 = facade w
            ∧ same_request (ctx w) (ctx run.1.2))).
Proof.
  intros run. subst run. unfold handlers_upload. split.
  - intros payload e Hbind. by rewrite Hbind.
  - intros payload Hbind. rewrite Hbind. split; [|split].
    + by destruct (Upload payload) as [[file|] [e|]].
    + intros file e Hup. by rewrite Hup.
    + intros file Hup. rewrite Hup. by step_handler.
Qed.

End Properties.

(** ** The properties on concrete requests *)

Lemma delete_nothing_to_delete_witness :
  handlers_delete (stubHandlers key32) (enter bareRequest)
    = (Done (Some ErrUnprocessable), enter bareRequest)
  ∧ facade (handlers_delete (stubHandlers key32) (enter bareRequest)).2 = []
  ∧ failure_status ErrUnprocessable = Some 422.
Proof.
  apply (delete_nothing_to_delete (stubHandlers key32) bareRequest); reflexivity.
Defined.

Lemma delete_by_path_strips_leading_witness :
  facade (handlers_delete (stubHandlers key32) (enter deletePathRequest)).2
    = [CallDelete "a.jpg"]
  ∧ (handlers_delete (stubHandlers key32) (enter deletePathRequest)).1 = Done None.
Proof.
  apply (delete_by_path_strips_leading (stubHandlers key32) deletePathRequest
           "/"%char "a.jpg"); reflexivity.
Defined.

Lemma delete_key_takes_precedence_witness :
  facade (handlers_delete (stubHandlers key32) (enter deleteBothRequest)).2
    = [CallDeleteChild "kk"]
  ∧ facade (handlers_delete (stubHandlers key32) (enter deletePathRequest)).2
    = [CallDelete "a.jpg"].
Proof.
  split.
  - apply (proj1 (delete_key_takes_precedence (stubHandlers key32) deleteBothRequest)).
    reflexivity.
  - apply (proj1 (proj2 (delete_key_takes_precedence (stubHandlers key32)
                           deletePathRequest)) "/"%char "a.jpg"); reflexivity.
Defined.

(** C3, as stated, fails: with both a non-empty path parameter and a
    derived key the file is deleted by key, not by path. *)
Lemma delete_both_present_is_by_key :
  Param deleteBothRequest "parameters" = "/a.jpg"
  ∧ Get deleteBothRequest "key" = (IString "kk", true)
  ∧ facade (handlers_delete (stubHandlers key32) (enter deleteBothRequest)).2
      = [CallDeleteChild "kk"]
  ∧ CallDelete "a.jpg"
      ∉ facade (handlers_delete (stubHandlers key32) (enter deleteBothRequest)).2.
Proof.
  repeat split. intros Hin. apply list_elem_of_singleton in Hin. discriminate.
Qed.

Lemma info_exist_empty_path_witness :
  let wi := (handlers_info stubURL stubPath stubFilename stubMarshal
               (stubHandlers key32) (enter bareRequest)).2 in
  let we := (handlers_exist (stubHandlers key32) (enter bareRequest)).2 in
  (handlers_info stubURL stubPath stubFilename stubMarshal
     (stubHandlers key32) (enter bareRequest)).1 = Done None
  ∧ Status (Writer (ctx wi)) = 400 ∧ facade wi = []
  ∧ (handlers_exist (stubHandlers key32) (enter bareRequest)).1 = Done None
  ∧ Status (Writer (ctx we)) = 400 ∧ facade we = [].
Proof.
  apply (info_exist_empty_path stubURL stubPath stubFilename stubMarshal
           (stubHandlers key32) bareRequest); reflexivity.
Defined.

Lemma secure_decode_failure_not_found_witness :
  let c := securedRequest "tok" in
  let rejected (sh : M (option error)) :=
    (sh (enter c)).1 = Done (Some (ErrOther "cipher: message authentication failed"))
    ∧ Status (Writer (ctx (sh (enter c)).2)) = 404
    ∧ Header (Writer (ctx (sh (enter c)).2)) = Header (Writer c)
    ∧ Body (Writer (ctx (sh (enter c)).2)) = Body (Writer c)
    ∧ Aborted (ctx (sh (enter c)).2) = true
    ∧ facade (sh (enter c)).2 = []
    ∧ logged (sh (enter c)).2 = [] in
  rejected (handlers_secureDisplay map_to_list rejectAll stubContentType
              stubContent (stubHandlers key32))
  ∧ rejected (handlers_secureGet rejectAll stubURL stubPath stubFilename
                stubMarshal (stubHandlers key32))
  ∧ rejected (handlers_secureRedirect rejectAll stubURL stubRedirect
                (stubHandlers key32)).
Proof.
  intros c rejected.
  assert (BlockSize ≤ length (SecurePathKey (processor (stubHandlers key32))))%nat
    as Hlen by (vm_compute; lia).
  pose proof (secure_decode_failure_not_found map_to_list rejectAll stubContentType
                stubContent stubURL stubPath stubFilename stubMarshal stubRedirect
                (stubHandlers key32) c (<["path" := IString "tok"]> ∅) "tok"
                EmptyString (ErrOther "cipher: message authentication failed")
                eq_refl eq_refl Hlen eq_refl) as Hall.
  split; [|split]; apply Hall.
  - apply list_elem_of_here.
  - apply list_elem_of_further, list_elem_of_here.
  - apply list_elem_of_further, list_elem_of_further, list_elem_of_here.
Defined.

Lemma securePath_key_segments_witness :
  ∃ key iv,
    codec (handlers_securePath acceptAll (stubHandlers key32)
             (enter (securedRequest "tok"))).2
      = [ {| token := "tok"; cipherKey := key; initVector := iv |} ]
    ∧ (key ++ iv)%list = key32
    ∧ length key = BlockSize
    ∧ length iv = (length key32 - BlockSize)%nat
    ∧ (length iv = BlockSize ↔ length key32 = (2 * BlockSize)%nat).
Proof.
  apply (securePath_key_segments acceptAll (stubHandlers key32)
           (securedRequest "tok") (<["path" := IString "tok"]> ∅) "tok");
    [reflexivity | reflexivity | vm_compute; lia].
Defined.

(** C2, as stated, fails: with key material of three blocks the
    initialization-vector segment handed to the codec is two blocks long. *)
Lemma key_segments_iv_not_one_block :
  length key48 = 48%nat
  ∧ ∃ call,
      codec (handlers_securePath rejectAll (stubHandlers key48)
               (enter (securedRequest "tok"))).2 = [call]
      ∧ length (cipherKey call) = 16%nat
      ∧ length (initVector call) = 32%nat
      ∧ length (initVector call) ≠ BlockSize.
Proof.
  split; [reflexivity|]. eexists. split; [reflexivity|].
  repeat split. vm_compute. lia.
Qed.

Lemma securePath_unguarded_assertions_witness :
  ∃ p,
    handlers_securePath acceptAll (stubHandlers key32) (enter bareRequest)
      = (Panicked p, enter bareRequest)
    ∧ handlers_secureDisplay map_to_list acceptAll stubContentType stubContent
        (stubHandlers key32) (enter bareRequest)
      = (Panicked p, enter bareRequest)
    ∧ handlers_secureGet acceptAll stubURL stubPath stubFilename stubMarshal
        (stubHandlers key32) (enter bareRequest)
      = (Panicked p, enter bareRequest)
    ∧ handlers_secureRedirect acceptAll stubURL stubRedirect (stubHandlers key32)
        (enter bareRequest)
      = (Panicked p, enter bareRequest).
Proof.
  destruct (securePath_unguarded_assertions map_to_list acceptAll stubContentType
              stubContent stubURL stubPath stubFilename stubMarshal stubRedirect
              (stubHandlers key32) bareRequest (or_introl eq_refl)) as [p Hall].
  exists p. repeat split; apply Hall.
  - apply list_elem_of_here.
  - apply list_elem_of_further, list_elem_of_here.
  - apply list_elem_of_further, list_elem_of_further, list_elem_of_here.
  - do 3 apply list_elem_of_further. apply list_elem_of_here.
Defined.

Lemma display_success_response_witness :
  let w := (handlers_display map_to_list stubContentType stubContent
              (stubHandlers key32) (enter bareRequest)).2 in
  Status (Writer (ctx w)) = 200
  ∧ Body (Writer (ctx w)) = [xff; xd8; xff]
  ∧ Header (Writer (ctx w)) !! "Cache-Control" = Some ["must-revalidate"]
  ∧ Header (Writer (ctx w)) !! "X-Robots" = Some ["none"]
  ∧ Header (Writer (ctx w)) !! "Content-Type" = Some ["image/jpeg"].
Proof.
  destruct (display_success_response map_to_list (λ m, Permutation_refl _)
              stubContentType stubContent (stubHandlers key32) bareRequest
              stubFile eq_refl)
    as (_ & Hst & Hbody & _ & Hcc & Hcopy & Hct).
  split; [exact Hst|]. split; [exact Hbody|]. split; [exact Hcc|]. split.
  - apply (Hcopy "X-Robots" "none");
      [reflexivity | discriminate | vm_compute; discriminate |].
    intros k' v' Hk' Hcanon.
    change (Headers stubFile)
      with (<["Cache-Control" := "no-cache"]>
              (<["X-Robots" := "none"]> (∅ : gmap string string))) in Hk'.
    apply lookup_insert_Some in Hk' as [[<- <-]|[_ Hk']];
      [vm_compute in Hcanon; discriminate|].
    apply lookup_insert_Some in Hk' as [[<- <-]|[_ Hk']]; [reflexivity|].
    by rewrite lookup_empty in Hk'.
  - apply Hct; [|reflexivity].
    intros k v Hk.
    change (Headers stubFile)
      with (<["Cache-Control" := "no-cache"]>
              (<["X-Robots" := "none"]> (∅ : gmap string string))) in Hk.
    apply lookup_insert_Some in Hk as [[<- <-]|[_ Hk]];
      [vm_compute; discriminate|].
    apply lookup_insert_Some in Hk as [[<- <-]|[_ Hk]];
      [vm_compute; discriminate|].
    by rewrite lookup_empty in Hk.
Defined.

(** C8, as stated, fails: a Cache-Control header declared by the facade
    is not copied into the response; the response carries the forced
    value in its place. *)
Lemma display_declared_cache_control_not_copied :
  let w := (handlers_display map_to_list stubContentType stubContent
              (stubHandlers key32) (enter bareRequest)).2 in
  ProcessContext (stubProcessor key32) bareRequest [WithAsync true; WithLoad true]
    = (Some stubFile, None)
  ∧ Headers stubFile !! "Cache-Control" = Some "no-cache"
  ∧ Header (Writer (ctx w)) !! "Cache-Control" = Some ["must-revalidate"]
  ∧ Header (Writer (ctx w)) !! "Cache-Control" ≠ Some ["no-cache"].
Proof. repeat split. vm_compute. discriminate. Qed.

Lemma display_cache_control_forced_witness :
  let w := (handlers_display map_to_list stubContentType stubContent
              (stubHandlers key32) (enter bareRequest)).2 in
  Header (Writer (ctx w)) !! "Cache-Control" = Some ["must-revalidate"]
  ∧ ∃ l1 l2, header_calls w =
      (l1 ++ ("Cache-Control", "no-cache") :: l2
          ++ [("Cache-Control", "must-revalidate")])%list.
Proof.
  apply (display_cache_control_forced map_to_list (λ m, Permutation_refl _)
           stubContentType stubContent (stubHandlers key32) bareRequest
           stubFile "no-cache"); reflexivity.
Defined.

(** ** The further properties on concrete requests *)

Lemma securePath_short_key_panics_witness :
  handlers_securePath acceptAll (stubHandlers key8) (enter (securedRequest "tok"))
    = (Panicked PanicSliceBounds, enter (securedRequest "tok"))
  ∧ handlers_secureDisplay map_to_list acceptAll stubContentType stubContent
      (stubHandlers key8) (enter (securedRequest "tok"))
    = (Panicked PanicSliceBounds, enter (securedRequest "tok"))
  ∧ handlers_secureGet acceptAll stubURL stubPath stubFilename stubMarshal
      (stubHandlers key8) (enter (securedRequest "tok"))
    = (Panicked PanicSliceBounds, enter (securedRequest "tok"))
  ∧ handlers_secureRedirect acceptAll stubURL stubRedirect (stubHandlers key8)
      (enter (securedRequest "tok"))
    = (Panicked PanicSliceBounds, enter (securedRequest "tok")).
Proof.
  apply securePath_short_key_panics
    with (ps := <["path" := IString "tok"]> ∅) (tok := "tok");
    [reflexivity | reflexivity | vm_compute; lia].
Defined.

Lemma secure_success_resumes_handler_witness :
  let c := securedRequest "tok" in
  let decoded :=
    {| ctx := c;
       facade := [CallSetSecuredOptions "tok"];
       codec := [ {| token := "tok"; cipherKey := replicate 16 x2a;
                     initVector := replicate 16 x2a |} ];
       logged := [ {| message := "Path decoded"; fields := [("path", "tok")] |} ];
       header_calls := [] |} in
  handlers_securePath acceptAll (stubHandlers key32) (enter c) = (Done None, decoded)
  ∧ handlers_secureDisplay map_to_list acceptAll stubContentType stubContent
      (stubHandlers key32) (enter c)
    = resume decoded
        (handlers_display map_to_list stubContentType stubContent (stubHandlers key32))
  ∧ handlers_secureGet acceptAll stubURL stubPath stubFilename stubMarshal
      (stubHandlers key32) (enter c)
    = resume decoded
        (handlers_get stubURL stubPath stubFilename stubMarshal (stubHandlers key32))
  ∧ handlers_secureRedirect acceptAll stubURL stubRedirect (stubHandlers key32)
      (enter c)
    = resume decoded (handlers_redirect stubURL stubRedirect (stubHandlers key32)).
Proof.
  intros c decoded.
  apply (secure_success_resumes_handler map_to_list acceptAll stubContentType
           stubContent stubURL stubPath stubFilename stubMarshal stubRedirect
           (stubHandlers key32) c (<["path" := IString "tok"]> ∅) "tok" "tok");
    [reflexivity | reflexivity | vm_compute; lia | reflexivity].
Defined.

Lemma secured_processing_requires_decode_witness :
  ∃ ps tok path,
    Keys (securedRequest "tok") !! "parameters" = Some (IMap ps)
    ∧ ps !! "path" = Some (IString tok)
    ∧ acceptAll tok (take BlockSize key32) (drop BlockSize key32) = (path, None)
    ∧ head (facade (handlers_secureGet acceptAll stubURL stubPath stubFilename
                      stubMarshal (stubHandlers key32)
                      (enter (securedRequest "tok"))).2)
      = Some (CallSetSecuredOptions path).
Proof.
  apply (secured_processing_requires_decode map_to_list acceptAll stubContentType
           stubContent stubURL stubPath stubFilename stubMarshal stubRedirect
           (stubHandlers key32) (securedRequest "tok")
           [WithAsync false; WithLoad false]).
  - apply list_elem_of_further, list_elem_of_here.
  - vm_compute. apply list_elem_of_further, list_elem_of_here.
Defined.

Lemma process_error_returned_witness :
  handlers_display map_to_list stubContentType stubContent
    {| processor := failingProcessor (ErrOther "upstream") |} (enter bareRequest)
  = (Done (Some (ErrOther "upstream")),
     {| ctx := bareRequest;
        facade := [CallProcessContext [WithAsync true; WithLoad true]];
        codec := []; logged := []; header_calls := [] |}).
Proof.
  apply (proj1 (process_error_returned map_to_list stubContentType stubContent
                  stubURL stubPath stubFilename stubMarshal stubRedirect
                  {| processor := failingProcessor (ErrOther "upstream") |}
                  bareRequest) None (ErrOther "upstream")).
  reflexivity.
Defined.

Lemma get_sizes_of_processed_file_witness :
  facade (handlers_get stubURL stubPath stubFilename stubMarshal
            (stubHandlers key32) (enter bareRequest)).2
  = [CallProcessContext [WithAsync false; WithLoad false];
     CallGetSizes (Some stubFile)].
Proof.
  apply (get_sizes_of_processed_file stubURL stubPath stubFilename stubMarshal
           (stubHandlers key32) bareRequest (Some stubFile)).
  reflexivity.
Defined.

Lemma delete_outcome_witness :
  (handlers_delete (stubHandlers key32) (enter deletePathRequest)).1 = Done None
  ∧ facade (handlers_delete (stubHandlers key32) (enter deletePathRequest)).2
    = [CallDelete "a.jpg"]
  ∧ Status (Writer (ctx (handlers_delete (stubHandlers key32)
                           (enter deletePathRequest)).2)) = 200
  ∧ Body (Writer (ctx (handlers_delete (stubHandlers key32)
                         (enter deletePathRequest)).2))
    = (Body (Writer deletePathRequest) ++ list_byte_of_string "Ok")%list.
Proof.
  apply (proj1 (delete_outcome (stubHandlers key32) deletePathRequest)
           "/"%char "a.jpg"); reflexivity.
Defined.

Lemma delete_key_not_string_panics_witness :
  handlers_delete (stubHandlers key32) (enter deleteBadKeyRequest)
  = (Panicked PanicInterfaceConversion, enter deleteBadKeyRequest).
Proof.
  apply (delete_key_not_string_panics (stubHandlers key32) deleteBadKeyRequest
           (IInt 7)); [reflexivity | discriminate].
Defined.

Lemma info_storage_lookup_witness :
  facade (handlers_info stubURL stubPath stubFilename stubMarshal
            (stubHandlers key32) (enter (pathQueryRequest "a.jpg"))).2
  = [CallGetStorageByFileExist "a.jpg";
     CallGetSizes (Some {| Filepath := "a.jpg"; Key := EmptyString; Headers := ∅;
                           FileStorage := Some {| StorageName := "fs" |} |})].
Proof.
  apply (proj2 (info_storage_lookup stubURL stubPath stubFilename stubMarshal
                  (stubHandlers key32) (pathQueryRequest "a.jpg")
                  ltac:(vm_compute; discriminate))
           {| StorageName := "fs" |}).
  reflexivity.
Defined.

Lemma exist_only_looks_up_witness :
  handlers_exist {| processor := failingProcessor ErrFileNotExists |}
    (enter (pathQueryRequest "a.jpg"))
  = (Done (Some ErrFileNotExists),
     {| ctx := pathQueryRequest "a.jpg";
        facade := [CallGetStorageByFileExist "a.jpg"];
        codec := []; logged := []; header_calls := [] |}).
Proof.
  apply (exist_only_looks_up {| processor := failingProcessor ErrFileNotExists |}
           (pathQueryRequest "a.jpg")).
  vm_compute. discriminate.
Defined.

Lemma display_keeps_other_headers_witness :
  Header (Writer (ctx (handlers_display map_to_list stubContentType stubContent
                         {| processor := fileProcessor (Some stubFile) |}
                         (enter poweredRequest)).2)) !! "X-Powered-By"
  = Header (Writer poweredRequest) !! "X-Powered-By".
Proof.
  apply (display_keeps_other_headers map_to_list (λ m, Permutation_refl _)
           stubContentType stubContent
           {| processor := fileProcessor (Some stubFile) |} poweredRequest stubFile
           "X-Powered-By" eq_refl); [discriminate | discriminate |].
  intros k v Hk.
  change (Headers stubFile)
    with (<["Cache-Control" := "no-cache"]>
            (<["X-Robots" := "none"]> (∅ : gmap string string))) in Hk.
  apply lookup_insert_Some in Hk as [[<- <-]|[_ Hk]]; [vm_compute; discriminate|].
  apply lookup_insert_Some in Hk as [[<- <-]|[_ Hk]]; [vm_compute; discriminate|].
  by rewrite lookup_empty in Hk.
Defined.

Lemma display_without_declared_headers_witness :
  let run := handlers_display map_to_list stubContentType stubContent
               {| processor := fileProcessor (Some plainFile) |}
               (enter poweredRequest) in
  header_calls run.2 = [("Cache-Control", "must-revalidate")]
  ∧ Header (Writer (ctx run.2)) !! "Cache-Control" = Some ["must-revalidate"]
  ∧ Header (Writer (ctx run.2)) !! "Content-Type" = Some ["image/jpeg"]
  ∧ Header (Writer (ctx run.2)) !! "X-Powered-By" = Some ["gin"].
Proof.
  destruct (display_without_declared_headers map_to_list (λ m, Permutation_refl _)
              stubContentType stubContent
              {| processor := fileProcessor (Some plainFile) |} poweredRequest
              plainFile eq_refl eq_refl)
    as (Hcalls & Hcc & Hfill & _ & Hother).
  split; [exact Hcalls|]. split; [exact Hcc|]. split.
  - apply Hfill. left. reflexivity.
  - rewrite (Hother "X-Powered-By"); [reflexivity | discriminate | discriminate].
Defined.

Lemma display_empty_value_removes_header_witness :
  Header (Writer poweredRequest) !! "X-Powered-By" = Some ["gin"]
  ∧ Header (Writer (ctx (handlers_display map_to_list stubContentType stubContent
                           {| processor := fileProcessor (Some emptyHeaderFile) |}
                           (enter poweredRequest)).2))
      !! CanonicalMIMEHeaderKey "x-powered-by" = None.
Proof.
  split; [reflexivity|].
  apply (display_empty_value_removes_header map_to_list (λ m, Permutation_refl _)
           stubContentType stubContent
           {| processor := fileProcessor (Some emptyHeaderFile) |} poweredRequest
           emptyHeaderFile "x-powered-by" eq_refl eq_refl);
    [vm_compute; discriminate | vm_compute; discriminate |].
  intros k' v' Hk' _.
  change (Headers emptyHeaderFile)
    with (<["x-powered-by" := EmptyString]> (∅ : gmap string string)) in Hk'.
  apply lookup_insert_Some in Hk' as [[<- <-]|[_ Hk']]; [reflexivity|].
  by rewrite lookup_empty in Hk'.
Defined.

Lemma nil_file_without_error_panics_witness :
  handlers_display map_to_list stubContentType stubContent
    {| processor := fileProcessor None |} (enter bareRequest)
  = (Panicked PanicNilDereference,
     {| ctx := bareRequest;
        facade := [CallProcessContext [WithAsync true; WithLoad true]];
        codec := []; logged := []; header_calls := [] |}).
Proof.
  apply (proj1 (nil_file_without_error_panics map_to_list stubContentType
                  stubContent stubURL stubPath stubFilename stubMarshal
                  {| processor := fileProcessor None |} bareRequest)).
  reflexivity.
Defined.

Lemma upload_outcomes_witness :
  handlers_upload (list byte) [] stubBindFail stubUpload stubURL stubPath
    stubMarshal (enter bareRequest)
  = (Done (Some (ErrOther "Required")), enter bareRequest, [])
  ∧ (handlers_upload (list byte) [] stubBindOk stubUploadFail stubURL stubPath
       stubMarshal (enter bareRequest)).2 = [[x89; x50]]
  ∧ (handlers_upload (list byte) [] stubBindOk stubUploadFail stubURL stubPath
       stubMarshal (enter bareRequest)).1
    = (Done (Some (ErrOther "storage unavailable")), enter bareRequest).
Proof.
  split.
  - apply (proj1 (upload_outcomes stubURL stubPath stubMarshal (list byte) []
                    stubBindFail stubUpload (enter bareRequest))
             [] (ErrOther "Required")).
    reflexivity.
  - destruct (proj2 (upload_outcomes stubURL stubPath stubMarshal (list byte) []
                       stubBindOk stubUploadFail (enter bareRequest))
                [x89; x50] eq_refl) as (Hcalls & Herr & _).
    split; [exact Hcalls|].
    apply (Herr None (ErrOther "storage unavailable")). reflexivity.
Defined.
